(** * Mollie API client for Node: demand planning, retrying transport,
      paginated iteration, identifier checks

    A shallow embedding of the parts of the client that its specification
    talks about, followed by the properties proved of them.

    Conventions of the embedding:
    - JavaScript numbers that hold counts, indices, HTTP statuses and delays
      are modelled as [Z] (or [N] where the source requires non-negative
      values).  The source computes with IEEE doubles; both agree as long as
      the values stay within the safe-integer range, and the theorems that
      multiply a parsed number carry that bound.
    - JavaScript strings are [string]s of code units; HTTP header values are
      Latin-1 strings, so one [ascii] is one code unit.
    - A JavaScript object used as a dictionary (HTTP headers, the prefix
      [Map]) is a [gmap string _].
    - A promise is modelled by its settlement; requests that are issued are
      recorded in an explicit event log. *)

From Equations Require Import Equations.
From Stdlib Require Import ZArith NArith QArith Lia List String Ascii Bool.
From Stdlib Require Strings.Byte.
From stdpp Require Import gmap strings list fin_maps.

Local Open Scope Z_scope.
Local Open Scope string_scope.

(* ===================================================================== *)
(** * Part I: the embedding                                               *)
(* ===================================================================== *)

(* --------------------------------------------------------------------- *)
(** ** Demand planner                                                     *)
(* --------------------------------------------------------------------- *)

Module Demand.

(** Modelled from the spec: the demand value of section 3 (the iterator
    class that plans the first page is not among the sources; only its test
    [tests/iteration/demanding-iteration.test.ts] is). *)
Inductive Demand : Type :=
| Bounded (n : N)
| Unbounded.

(** Modelled from the spec: [Bounded(a) + Bounded(b) = Bounded(a+b)];
    [Unbounded + b = Unbounded]. *)
Definition add (a b : Demand) : Demand :=
  match a, b with
  | Bounded x, Bounded y => Bounded (x + y)
  | _, _ => Unbounded
  end.

(** Modelled from the spec: [min(Bounded(a), Bounded(b)) = Bounded(min(a,b))];
    [min(Unbounded, b) = b]. *)
Definition min (a b : Demand) : Demand :=
  match a, b with
  | Bounded x, Bounded y => Bounded (N.min x y)
  | Unbounded, _ => b
  | _, Unbounded => a
  end.

(** Modelled from the spec: the fixed constants of the remote API. *)
Definition DEFAULT_PAGE_SIZE : N := 128.
Definition MAX_PAGE_SIZE : N := 250.

Section Chain.
Context {Item : Type}.

(** Modelled from the spec: the chain node of section 3, a tagged variant
    in which every combinator holds its single upstream node. *)
Inductive ChainNode : Type :=
| Source
| Take (n : N) (upstream : ChainNode)
| Drop (n : N) (upstream : ChainNode)
| Filter (predicate : Item -> bool) (upstream : ChainNode)
| Map (transform : Item -> Item) (upstream : ChainNode).

(** Modelled from the spec: the transform table of section 4.1. *)
Definition transform (node : ChainNode) (downReq : Demand) : Demand :=
  match node with
  | Source => downReq
  | Take n _ => min (Bounded n) downReq
  | Drop n _ => add downReq (Bounded n)
  | Filter _ _ => Unbounded
  | Map _ _ => downReq
  end.

(** Modelled from the spec: the backward fold of section 4.1, walking from
    the most recently applied combinator (the outermost node) to the
    source. *)
Fixpoint fold (node : ChainNode) (downReq : Demand) : Demand :=
  match node with
  | Source => downReq
  | Take _ up | Drop _ up | Filter _ up | Map _ up =>
      fold up (transform node downReq)
  end.

(** Modelled from the spec: the fold starts from [Unbounded], "the consumer
    will drain the whole chain". *)
Definition demand (chain : ChainNode) : Demand := fold chain Unbounded.

(** Modelled from the spec: "if [Bounded(n)], request
    [min(n, MAX_PAGE_SIZE)]; if [Unbounded], request [DEFAULT_PAGE_SIZE]". *)
Definition firstPageSize (chain : ChainNode) : N :=
  match demand chain with
  | Bounded n => N.min n MAX_PAGE_SIZE
  | Unbounded => DEFAULT_PAGE_SIZE
  end.

(** Modelled from the spec: the chainable surface of section 6.  Each call
    wraps the receiver as its upstream, so [drop 10 (take 80 iterate)] is
    the chain written [iterate().take(80).drop(10)]. *)
Definition iterate : ChainNode := Source.
Definition take (n : N) (it : ChainNode) : ChainNode := Take n it.
Definition drop (n : N) (it : ChainNode) : ChainNode := Drop n it.
Definition filter (p : Item -> bool) (it : ChainNode) : ChainNode := Filter p it.
Definition map (f : Item -> Item) (it : ChainNode) : ChainNode := Map f it.

(** Modelled from the spec: the first request of section 6,
    [GET <resourcePath>?limit=<n>], as the pair of its path and limit. *)
Definition firstRequest (resourcePath : string) (chain : ChainNode) : string * N :=
  (resourcePath, firstPageSize chain).

(** Modelled from the spec: the limit carried by the first [GET] of a chain
    over [/payments], which is what the [toDemand] matcher of the test
    looks at. *)
Definition limit (chain : ChainNode) : N := snd (firstRequest "payments" chain).
End Chain.

Arguments ChainNode : clear implicits.

End Demand.

(* --------------------------------------------------------------------- *)
(** ** JavaScript values and strings                                      *)
(* --------------------------------------------------------------------- *)

Module JS.

(** The values a response body or a return value can be: what [JSON.parse]
    produces, plus [undefined].  Numbers are the integers the client handles
    (statuses, counts). *)
#[local] Set Warnings "-register-all".
Inductive value : Type :=
| VUndefined
| VNull
| VBool (b : bool)
| VNumber (n : Z)
| VString (s : string)
| VArray (elements : list value)
| VObject (properties : list (string * value)).

(** [x == undefined] and [x == null]: both hold of [undefined] and [null]
    only. *)
Definition nullish (v : value) : bool :=
  match v with
  | VUndefined | VNull => true
  | _ => false
  end.

(** Own-property lookup in an object literal, first binding of a key (the
    objects of [JSON.parse] have one binding per key). *)
Fixpoint assoc (name : string) (properties : list (string * value)) : value :=
  match properties with
  | [] => VUndefined
  | (k, v) :: rest => if String.eqb k name then v else assoc name rest
  end.

(** [v[name]] for a [v] that is neither [undefined] nor [null].  The names
    the client reads ([_embedded], [_links], [count], a resource key such as
    [payments]) are own properties of objects only; what arrays, strings,
    numbers and booleans inherit from their prototypes is not modelled. *)
Definition get (v : value) (name : string) : value :=
  match v with
  | VObject properties => assoc name properties
  | _ => VUndefined
  end.

(** [ToString] of an optional string: [undefined] becomes ["undefined"]. *)
Definition ToString (v : option string) : string :=
  match v with
  | Some s => s
  | None => "undefined"
  end.

(** [s.startsWith(searchString)]; the search string goes through [ToString]
    first. *)
Definition startsWith (s : string) (searchString : option string) : bool :=
  String.prefix (ToString searchString) s.

Definition code (c : ascii) : Z := Z.of_N (N_of_ascii c).

(** The white space [parseInt] skips ([StrWhiteSpaceChar]), among the code
    units below 256: TAB, LF, VT, FF, CR, SP and NBSP. *)
Definition isWhiteSpace (c : ascii) : bool :=
  let n := code c in
  ((9 <=? n)%Z && (n <=? 13)%Z || (n =? 32)%Z || (n =? 160)%Z)%bool.

Definition isDigit (c : ascii) : bool :=
  let n := code c in ((48 <=? n)%Z && (n <=? 57)%Z)%bool.

Definition digitValue (c : ascii) : Z := code c - 48.

Fixpoint trimStart (s : string) : string :=
  match s with
  | String c rest => if isWhiteSpace c then trimStart rest else s
  | EmptyString => s
  end.

(** The value of the longest prefix of decimal digits; [acc] is the value
    read so far, [None] while no digit was seen. *)
Fixpoint leadingDigits (acc : option Z) (s : string) : option Z :=
  match s with
  | String c rest =>
      if isDigit c
      then leadingDigits (Some (10 * default 0 acc + digitValue c)) rest
      else acc
  | EmptyString => acc
  end.

(** [parseInt(input, 10)]; [None] stands for [NaN].  The input is trimmed at
    its start, one sign is read, then the longest run of digits; anything
    after it is ignored.  ([-0] is [0] here.) *)
Definition parseInt (input : option string) : option Z :=
  match trimStart (ToString input) with
  | String c rest =>
      if Ascii.eqb c "-" then Z.opp <$> leadingDigits None rest
      else if Ascii.eqb c "+" then leadingDigits None rest
      else leadingDigits None (String c rest)
  | EmptyString => None
  end.

(** A plain integer: a non-empty string of decimal digits and nothing else,
    with the number it denotes (most significant digit first). *)
Inductive plainInteger : string -> Z -> Prop :=
| plain_digit c :
    isDigit c = true -> plainInteger (String c "") (digitValue c)
| plain_more s n c :
    plainInteger s n -> isDigit c = true ->
    plainInteger (String.append s (String c "")) (10 * n + digitValue c).

Fixpoint allWhiteSpace (s : string) : bool :=
  match s with
  | String c rest => isWhiteSpace c && allWhiteSpace rest
  | EmptyString => true
  end.

(** A string that begins like a number: white space, at most one sign, then
    a digit.  A value without such a beginning is not numeric. *)
Definition numericPrefix (s : string) : Prop :=
  exists ws sign c rest,
    allWhiteSpace ws = true /\
    (sign = "" \/ sign = "+" \/ sign = "-") /\
    isDigit c = true /\
    s = String.append ws (String.append sign (String c rest)).

(** A letter of the Latin alphabet; every HTTP-date begins with one (the
    name of the day). *)
Definition isLetter (c : ascii) : bool :=
  let n := code c in
  ((65 <=? n)%Z && (n <=? 90)%Z || (97 <=? n)%Z && (n <=? 122)%Z)%bool.

(** Every character of the string is a decimal digit. *)
Fixpoint allDigits (s : string) : bool :=
  match s with
  | String c rest => isDigit c && allDigits rest
  | EmptyString => true
  end.

End JS.

(* --------------------------------------------------------------------- *)
(** ** Node's [crypto.randomBytes] and [Buffer.toString('base64')]        *)
(* --------------------------------------------------------------------- *)

Module Node.

Abbreviation byte := Corelib.Init.Byte.byte.

(** The operating system's entropy, as the sequence of the octets it will
    hand out. *)
Definition Entropy : Type := nat -> byte.

(** [randomBytes(size)]: the next [size] octets; the source moves on. *)
Definition randomBytes (size : nat) (source : Entropy) : list byte * Entropy :=
  (List.map source (seq 0 size), fun i => source (size + i)%nat).

Definition alphabet : string :=
  "ABCDEFGHIJKLMNOPQRSTUVWXYZabcdefghijklmnopqrstuvwxyz0123456789+/".

Definition sextet (n : N) : ascii :=
  default "="%char (String.get (N.to_nat n) alphabet).

(** Base64 of RFC 4648 with padding, as [buffer.toString('base64')] gives. *)
Fixpoint base64 (bytes : list byte) : string :=
  match bytes with
  | [] => ""
  | [a] =>
      let a := Stdlib.Strings.Byte.to_N a in
      String (sextet (a / 4)) (String (sextet (a mod 4 * 16)) "==")
  | [a; b] =>
      let a := Stdlib.Strings.Byte.to_N a in
      let b := Stdlib.Strings.Byte.to_N b in
      String (sextet (a / 4)) (String (sextet (a mod 4 * 16 + b / 16))
        (String (sextet (b mod 16 * 4)) "="))
  | a :: b :: c :: rest =>
      let a := Stdlib.Strings.Byte.to_N a in
      let b := Stdlib.Strings.Byte.to_N b in
      let c := Stdlib.Strings.Byte.to_N c in
      String (sextet (a / 4)) (String (sextet (a mod 4 * 16 + b / 16))
        (String (sextet (b mod 16 * 4 + c / 64)) (String (sextet (c mod 64))
          (base64 rest))))
  end%N.

(** The characters of the alphabet, which excludes the padding [=]. *)
Definition isBase64Char (c : ascii) : bool :=
  existsb (Ascii.eqb c) (list_ascii_of_string alphabet).

(** The position of a character in a string (its length when absent); on
    the alphabet, the sextet a character stands for. *)
Fixpoint indexOf (c : ascii) (s : string) : N :=
  match s with
  | String d rest => if Ascii.eqb c d then 0%N else (1 + indexOf c rest)%N
  | EmptyString => 0%N
  end.

Definition unsextet (c : ascii) : N := indexOf c alphabet.

End Node.

(* --------------------------------------------------------------------- *)
(** ** The Axios interface the client programs against                    *)
(* --------------------------------------------------------------------- *)

Module Axios.

Inductive Method : Type := GET | POST | PATCH | DELETE.

Module AxiosResponse.
Record t : Type := {
  status : Z;
  headers : gmap string string;
  data : JS.value
}.
End AxiosResponse.

Module AxiosRequestConfig.
(** The properties of a request configuration the client touches; the
    attempt index is [None] while the property is [undefined]. *)
Record t : Type := {
  method : Method;
  url : string;
  data : JS.value;
  headers : gmap string string;
  _attemptIndex : option Z
}.

(** [{}], which a wrapper receives when the caller passes no configuration
    (the method is filled in by the verb function). *)
Definition empty : t :=
  {| method := GET; url := ""; data := JS.VUndefined; headers := ∅;
     _attemptIndex := None |}.
End AxiosRequestConfig.

(** What an interceptor or a caller can be handed as an error: an Axios
    error, which always has the configuration of its request and has a
    response when the server answered, or anything else. *)
Inductive Error : Type :=
| AxiosError (config : AxiosRequestConfig.t) (response : option AxiosResponse.t)
| OtherError (message : string).

(** [axios.isAxiosError] *)
Definition isAxiosError (error : Error) : bool :=
  match error with
  | AxiosError _ _ => true
  | OtherError _ => false
  end.

(** The settlement of the promise a request returns. *)
Inductive Settled : Type :=
| Fulfilled (response : AxiosResponse.t)
| Rejected (error : Error).

(** What sending one request over the wire comes to: a response whose status
    Axios accepts, a failure (a response with a rejected status, or no
    response at all), or an error that is not an Axios error. *)
Inductive Outcome : Type :=
| Responded (response : AxiosResponse.t)
| Failed (response : option AxiosResponse.t)
| Crashed (message : string).

End Axios.

(* --------------------------------------------------------------------- *)
(** ** makeRetrying                                                       *)
(* --------------------------------------------------------------------- *)

Module makeRetrying.
Import Axios.

(** The delay, in milliseconds, between attempts. *)
Definition retryDelay : Z := 2000.

(** The maximum number of attempts per request. *)
Definition attemptLimit : Z := 3.

(** Returns whether the passed error is as expected: an Axios error whose
    config has an attempt index. *)
Definition checkError (error : Error) : bool :=
  isAxiosError error &&
  match error with
  | AxiosError config _ => bool_decide (is_Some (AxiosRequestConfig._attemptIndex config))
  | OtherError _ => false
  end.

(** An object with the single property [Idempotency-Key], whose value is
    the base64 of 18 random octets. *)
Definition generateIdempotencyHeader (source : Node.Entropy)
  : gmap string string * Node.Entropy :=
  let '(bytes, source) := Node.randomBytes 18 source in
  ({[ "Idempotency-Key" := Node.base64 bytes ]}, source).

(** The Retry-After header in milliseconds; [None] for [undefined], when
    the header is absent or [parseInt] makes nothing of it. *)
Definition parseRetryAfterHeader (response : AxiosResponse.t) : option Z :=
  match JS.parseInt (AxiosResponse.headers response !! "retry-after") with
  | None => None
  | Some retryAfter => Some (retryAfter * 1000)
  end.

(** The request interceptor:
    [config[attemptIndex] = (config[attemptIndex] ?? -1) + 1]. *)
Definition onRequest (config : AxiosRequestConfig.t) : AxiosRequestConfig.t :=
  {| AxiosRequestConfig.method := AxiosRequestConfig.method config;
     AxiosRequestConfig.url := AxiosRequestConfig.url config;
     AxiosRequestConfig.data := AxiosRequestConfig.data config;
     AxiosRequestConfig.headers := AxiosRequestConfig.headers config;
     AxiosRequestConfig._attemptIndex :=
       Some (default (-1) (AxiosRequestConfig._attemptIndex config) + 1) |}.

(** What the response interceptor does with an error: reject it to the
    caller, or schedule another [axiosInstance.request(config)] after
    [delay] milliseconds. *)
Inductive Handling : Type :=
| Reject (error : Error)
| Reattempt (delay : Z) (config : AxiosRequestConfig.t).

(** The response interceptor's error handler. *)
Definition onRejected (error : Error) : Handling :=
  if negb (checkError error) then Reject error else
  match error with
  | OtherError _ => Reject error
  | AxiosError config response =>
      if bool_decide (AxiosRequestConfig._attemptIndex config = Some (attemptLimit - 1))
      then Reject error else
      match response with
      | None => Reject error
      | Some r =>
          if negb (AxiosResponse.status r / 100 =? 5)%Z then Reject error else
          let delay := default retryDelay (parseRetryAfterHeader r) in
          Reattempt delay config
      end
  end.

(** What can be observed of a request from outside: the configurations put
    on the wire and the timers set between them. *)
Inductive Event : Type :=
| Send (config : AxiosRequestConfig.t)
| Wait (delay : Z).

Fixpoint sends (log : list Event) : list AxiosRequestConfig.t :=
  match log with
  | [] => []
  | Send config :: log => config :: sends log
  | Wait _ :: log => sends log
  end.

Fixpoint waits (log : list Event) : list Z :=
  match log with
  | [] => []
  | Send _ :: log => waits log
  | Wait delay :: log => delay :: waits log
  end.

Section Instance.
(** The wire: what sending a configuration comes to. *)
Variable adapter : AxiosRequestConfig.t -> Outcome.

(** An Axios error carries the configuration of the request it is about. *)
Definition dispatch (config : AxiosRequestConfig.t) : Settled :=
  match adapter config with
  | Responded response => Fulfilled response
  | Failed response => Rejected (AxiosError config response)
  | Crashed message => Rejected (OtherError message)
  end.

(** [axiosInstance.request(config)] of an instance enhanced by
    [makeRetrying]: the request interceptor, the wire, and on an error the
    response interceptor, which may come back here.  [fuel] bounds the
    number of attempts the model follows. *)
Fixpoint request (fuel : nat) (config : AxiosRequestConfig.t)
  : option (Settled * list Event) :=
  match fuel with
  | O => None
  | S fuel =>
      let config := onRequest config in
      match dispatch config with
      | Fulfilled response => Some (Fulfilled response, [Send config])
      | Rejected error =>
          match onRejected error with
          | Reject error => Some (Rejected error, [Send config])
          | Reattempt delay config' =>
              match request fuel config' with
              | None => None
              | Some (settled, log) =>
                  Some (settled, Send config :: Wait delay :: log)
              end
          end
      end
  end.

(** [{ ...config, headers: { ...config?.headers, ...header } }] *)
Definition withHeader (config : option AxiosRequestConfig.t)
  (header : gmap string string) : AxiosRequestConfig.t :=
  let config := default AxiosRequestConfig.empty config in
  {| AxiosRequestConfig.method := AxiosRequestConfig.method config;
     AxiosRequestConfig.url := AxiosRequestConfig.url config;
     AxiosRequestConfig.data := AxiosRequestConfig.data config;
     AxiosRequestConfig.headers := header ∪ AxiosRequestConfig.headers config;
     AxiosRequestConfig._attemptIndex := AxiosRequestConfig._attemptIndex config |}.

(** The instance's original verb functions: the method, the URL and the
    body are merged into the configuration, which is then requested. *)
Definition originalPost (fuel : nat) (url : string) (data : JS.value)
  (config : AxiosRequestConfig.t) : option (Settled * list Event) :=
  request fuel
    {| AxiosRequestConfig.method := POST;
       AxiosRequestConfig.url := url;
       AxiosRequestConfig.data := data;
       AxiosRequestConfig.headers := AxiosRequestConfig.headers config;
       AxiosRequestConfig._attemptIndex := AxiosRequestConfig._attemptIndex config |}.

Definition originalDelete (fuel : nat) (url : string)
  (config : AxiosRequestConfig.t) : option (Settled * list Event) :=
  request fuel
    {| AxiosRequestConfig.method := DELETE;
       AxiosRequestConfig.url := url;
       AxiosRequestConfig.data := AxiosRequestConfig.data config;
       AxiosRequestConfig.headers := AxiosRequestConfig.headers config;
       AxiosRequestConfig._attemptIndex := AxiosRequestConfig._attemptIndex config |}.

(** The overwritten [post] and [delete] of the instance.  Each call draws
    one idempotency header; the entropy source is threaded through. *)
Definition post (fuel : nat) (url : string) (data : JS.value)
  (config : option AxiosRequestConfig.t) (source : Node.Entropy)
  : option (Settled * list Event) * Node.Entropy :=
  let '(header, source) := generateIdempotencyHeader source in
  (originalPost fuel url data (withHeader config header), source).

Definition delete (fuel : nat) (url : string)
  (config : option AxiosRequestConfig.t) (source : Node.Entropy)
  : option (Settled * list Event) * Node.Entropy :=
  let '(header, source) := generateIdempotencyHeader source in
  (originalDelete fuel url (withHeader config header), source).
End Instance.

(** A logical write request: one call of the instance's [post] or
    [delete]. *)
Inductive Write : Type :=
| Post (url : string) (data : JS.value) (config : option AxiosRequestConfig.t)
| Delete (url : string) (config : option AxiosRequestConfig.t).

Definition verb (request : Write) : Method :=
  match request with
  | Post _ _ _ => POST
  | Delete _ _ => DELETE
  end.

(** The configuration the caller passes along, if any. *)
Definition given (request : Write) : option AxiosRequestConfig.t :=
  match request with
  | Post _ _ config => config
  | Delete _ config => config
  end.

(** Making the call on an instance enhanced by [makeRetrying]. *)
Definition write (adapter : AxiosRequestConfig.t -> Outcome) (fuel : nat)
  (request : Write) (source : Node.Entropy)
  : option (Settled * list Event) * Node.Entropy :=
  match request with
  | Post url data config => post adapter fuel url data config source
  | Delete url config => delete adapter fuel url config source
  end.

(** The idempotency key each attempt of a request carried on the wire. *)
Definition idempotencyKeys (log : list Event) : list (option string) :=
  (fun config => AxiosRequestConfig.headers config !! "Idempotency-Key") <$> sends log.

(** The key the next call of [generateIdempotencyHeader] produces. *)
Definition nextKey (source : Node.Entropy) : string :=
  Node.base64 (fst (Node.randomBytes 18 source)).

(** The status class of a response is 5××. *)
Definition serverError (response : AxiosResponse.t) : Prop :=
  500 <= AxiosResponse.status response < 600.

#[global] Instance serverError_dec response : Decision (serverError response).
Proof. unfold serverError. apply _. Defined.

(** An attempt with the 0-based [index] came to [outcome]: a server response
    was obtained whose status class is 5××, and with this attempt the
    attempt limit is not reached yet. *)
Definition reattempted (index : Z) (outcome : Outcome) : Prop :=
  (exists r, outcome = Failed (Some r) /\ serverError r) /\ index + 1 < attemptLimit.

End makeRetrying.

(* --------------------------------------------------------------------- *)
(** ** NetworkClient                                                      *)
(* --------------------------------------------------------------------- *)

Module NetworkClient.
Import JS Axios.

(** An [ApiError], by the way it is made: [ApiError.createFromResponse] or
    [new ApiError(message)]. *)
Inductive ApiError : Type :=
| createFromResponse (response : AxiosResponse.t)
| newApiError (message : string).

(** What a call can throw: an [ApiError], or the [TypeError] the runtime
    raises on a property access or [Object.assign] on [undefined] or [null]. *)
Inductive Thrown : Type :=
| ThrownApiError (error : ApiError)
| TypeError.

(** How a call ends. *)
Inductive Completion (A : Type) : Type :=
| Returned (result : A)
| Threw (thrown : Thrown).
Arguments Returned {A} result.
Arguments Threw {A} thrown.

(** The cause a rejected request is rejected with, as [throwApiError] looks
    at it: its [response] property if it has one that is not [undefined],
    and its [message] property, through [String], if it has one. *)
Record Cause : Type := {
  response : option AxiosResponse.t;
  message : option string
}.

Definition throwApiError (cause : Cause) : ApiError :=
  match response cause with
  | Some r => createFromResponse r
  | None => newApiError (default "An unknown error has occurred" (message cause))
  end.

(** If there are fewer items in the buffer of the iterator than this mark, a
    request for the next page will be made. *)
Definition iteratorLowWaterMark : Q := 5.5.

(** [length < iteratorLowWaterMark] *)
Definition belowLowWaterMark (length : nat) : bool :=
  match (inject_Z (Z.of_nat length) ?= iteratorLowWaterMark)%Q with
  | Lt => true
  | _ => false
  end.

(** The query of a request, [Record<string, any>]. *)
Definition Query : Type := Datatypes.list (string * string).

(** What [list] returns: [embedded[type]] with [links] and [count] assigned
    onto it. *)
Record Listed : Type := {
  target : value;
  listed_links : value;
  listed_count : value
}.

Section Methods.
(** The Axios instance: how the promise of a request settles. *)
Variable axiosInstance :
  Method -> string -> option value -> AxiosResponse.t + Cause.
Variable stringifyQuery : Query -> string.

Definition post (relativePath : string) (data : value) (query : Query)
  : Completion value :=
  match axiosInstance POST (relativePath +:+ stringifyQuery query) (Some data) with
  | inr cause => Threw (ThrownApiError (throwApiError cause))
  | inl response =>
      if (AxiosResponse.status response =? 204)%Z then Returned (VBool true)
      else Returned (AxiosResponse.data response)
  end.

Definition get (relativePath : string) (query : Query) : Completion value :=
  match axiosInstance GET (relativePath +:+ stringifyQuery query) None with
  | inr cause => Threw (ThrownApiError (throwApiError cause))
  | inl response => Returned (AxiosResponse.data response)
  end.

Definition patch (relativePath : string) (data : value) : Completion value :=
  match axiosInstance PATCH relativePath (Some data) with
  | inr cause => Threw (ThrownApiError (throwApiError cause))
  | inl response => Returned (AxiosResponse.data response)
  end.

Definition delete (relativePath : string) (context : value) : Completion value :=
  match axiosInstance DELETE relativePath (Some context) with
  | inr cause => Threw (ThrownApiError (throwApiError cause))
  | inl response =>
      if (AxiosResponse.status response =? 204)%Z then Returned (VBool true)
      else Returned (AxiosResponse.data response)
  end.

(** [list]: the destructuring of [response.data] sits in the [try] and
    throws exactly when the data is [undefined] or [null]; the accesses
    [embedded[type]] and [Object.assign(embedded[type], ...)] come after the
    [try]. *)
Definition list (relativePath : string) (type : string) (query : Query)
  : Completion Listed :=
  match axiosInstance GET (relativePath +:+ stringifyQuery query) None with
  | inr cause => Threw (ThrownApiError (throwApiError cause))
  | inl response =>
      let data := AxiosResponse.data response in
      if nullish data
      then Threw (ThrownApiError (newApiError "Received unexpected response from the server"))
      else
        let embedded := JS.get data "_embedded" in
        let links := JS.get data "_links" in
        let count := JS.get data "count" in
        if nullish embedded then Threw TypeError else
        let items := JS.get embedded type in
        if nullish items then Threw TypeError else
        Returned {| target := items; listed_links := links; listed_count := count |}
  end.

(** [listPlain]: as [list], but [embedded[binderName]] is returned as it is,
    without [Object.assign]. *)
Definition listPlain (relativePath : string) (binderName : string) (query : Query)
  : Completion value :=
  match axiosInstance GET (relativePath +:+ stringifyQuery query) None with
  | inr cause => Threw (ThrownApiError (throwApiError cause))
  | inl response =>
      let data := AxiosResponse.data response in
      if nullish data
      then Threw (ThrownApiError (newApiError "Received unexpected response from the server"))
      else
        let embedded := JS.get data "_embedded" in
        if nullish embedded then Threw TypeError else
        Returned (JS.get embedded binderName)
  end.
End Methods.

(** *** The headers the constructor composes *)

(** What a function that can throw a plain [Error] comes to. *)
Inductive OrError (A : Type) : Type :=
| Fine (result : A)
| ErrorThrown (message : string).
Arguments Fine {A} result.
Arguments ErrorThrown {A} message.

(** [Maybe<T | T[]>]: nothing ([undefined] or [null]), one value, or an
    array. *)
Inductive OneOrMany (T : Type) : Type :=
| Nothing
| Sole (value : T)
| Several (values : Datatypes.list T).
Arguments Nothing {T}.
Arguments Sole {T} value.
Arguments Several {T} values.

(** Like [[].map] but with support for non-array inputs, in which case this
    function behaves as if an array was passed with the input as its sole
    element. *)
Definition map {T U : Type} (input : OneOrMany T) (callback : T -> nat -> U)
  : Datatypes.list U :=
  match input with
  | Several values => imap (fun index value => callback value index) values
  | Sole value => [callback value 0%nat]
  | Nothing => []
  end.

(** The results of callbacks run in order, up to the first that throws. *)
Fixpoint inOrder {A : Type} (results : Datatypes.list (OrError A))
  : OrError (Datatypes.list A) :=
  match results with
  | [] => Fine []
  | Fine result :: results =>
      match inOrder results with
      | Fine rest => Fine (result :: rest)
      | ErrorThrown message => ErrorThrown message
      end
  | ErrorThrown message :: _ => ErrorThrown message
  end.

Definition isSlash (c : ascii) : bool := Ascii.eqb c "/".

Fixpoint contains (p : ascii -> bool) (s : string) : bool :=
  match s with
  | String c rest => p c || contains p rest
  | EmptyString => false
  end.

(** A string at its first ["/"]: what is before it and what is after it;
    [None] when [indexOf('/')] is [-1]. *)
Fixpoint splitSlash (s : string) : option (string * string) :=
  match s with
  | String c rest =>
      if isSlash c then Some ("", rest) else
      match splitSlash rest with
      | Some (before, after) => Some (String c before, after)
      | None => None
      end
  | EmptyString => None
  end.

(** The two groups of [/^([^\/]+)\/([^\/\s]+)$/.exec(versionString)]: one
    or more characters other than a slash, a slash, and one or more
    characters that are neither a slash nor white space, up to the end.
    (Strings are strings of code units below 256, on which [\s] is the
    white space of [JS.isWhiteSpace].) *)
Definition execVersionString (versionString : string) : option (string * string) :=
  match splitSlash versionString with
  | Some (platform, version) =>
      if negb (String.eqb platform "") && negb (String.eqb version "") &&
         negb (contains (fun c => isSlash c || isWhiteSpace c) version)
      then Some (platform, version)
      else None
  | None => None
  end.

Definition needsSlash : string :=
  "Invalid version string. It needs to consist of a name and version separated by a forward slash, e.g. RockenbergCommerce/3.1.12".

Definition noWhiteSpace : string :=
  "Invalid version string. The version may not contain any whitespace.".

Section UserAgent.
(** [dromedaryCase] is not among the sources. *)
Variable dromedaryCase : string -> string.

(** The callback [composeUserAgent] maps over the version strings.  Without
    a match, the first message is for a string without a slash
    ([indexOf] is [-1]) or with more than one ([indexOf] differs from
    [lastIndexOf]), the second for everything else. *)
Definition versionToken (versionString : string) : OrError string :=
  match execVersionString versionString with
  | None =>
      if match splitSlash versionString with
         | None => true
         | Some (_, after) => contains isSlash after
         end
      then ErrorThrown needsSlash
      else ErrorThrown noWhiteSpace
  | Some (platform, version) => Fine (dromedaryCase platform +:+ "/" +:+ version)
  end.

(** Composes a [User-Agent] header value which looks something like
    [Node/10.0.0 Mollie/3.0.0 RockenbergCommerce/1.16.0]. *)
Definition composeUserAgent (nodeVersion libraryVersion : string)
  (versionStrings : OneOrMany string) : OrError string :=
  match inOrder (map versionStrings (fun versionString _ => versionToken versionString)) with
  | ErrorThrown message => ErrorThrown message
  | Fine tokens =>
      Fine (String.concat " "
              (("Node/" +:+ nodeVersion) :: ("Mollie/" +:+ libraryVersion) :: tokens))
  end.

(** The options of the constructor that bear on the headers;
    [axiosHeaders] is [axiosOptions.headers], empty when not given. *)
Record Options : Type := {
  apiKey : option string;
  accessToken : option string;
  versionStrings : OneOrMany string;
  axiosHeaders : gmap string string
}.

(** The headers the constructor hands to [axios.create]. *)
Definition constructorHeaders (options : Options) (libraryVersion nodeVersion : string)
  : OrError (gmap string string) :=
  match composeUserAgent nodeVersion libraryVersion (versionStrings options) with
  | ErrorThrown message => ErrorThrown message
  | Fine userAgent =>
      let headers := <["User-Agent" := userAgent]> (axiosHeaders options) in
      let headers :=
        match apiKey options with
        | Some apiKey => <["Authorization" := "Bearer " +:+ apiKey]> headers
        | None =>
            let headers :=
              <["Authorization" := "Bearer " +:+ ToString (accessToken options)]> headers in
            <["User-Agent" := ToString (headers !! "User-Agent") +:+ " OAuth/2.0"]> headers
        end in
      let headers := <["Accept" := "application/hal+json"]> headers in
      let headers := <["Accept-Encoding" := "gzip"]> headers in
      let headers := <["Content-Type" := "application/json"]> headers in
      Fine headers
  end.
End UserAgent.

(** *** The iterator over the pages of a list

    [iterate] is written against the declared type of [list]'s result, an
    array of [R] with [links]; the model follows it at that type: a page is
    its items and its [links.next], and [list] is whatever answers a path
    with a page or an error. *)
Section Iterate.
Context {R : Type}.

Record Link : Type := { href : string }.
Record Links : Type := { next : option Link }.
Record Page : Type := { items : Datatypes.list R; links : Links }.

(** The arguments of a [list] call: path, type, and the query if given. *)
Definition ListArguments : Type := string * string * option Query.

(** The network behind [networkClient.list]. *)
Variable server : ListArguments -> Completion Page.

(** A promise made by calling [networkClient.list]: the request is on its
    way from the moment of the call; awaiting the promise gives what the
    server answers to it. *)
Definition Promise : Type := ListArguments.

(** What the iterator does to the network: it makes a request when it calls
    [list], and it takes the answer of one when it awaits the promise. *)
Inductive Event : Type :=
| Requested (arguments : ListArguments)
| Awaited (arguments : ListArguments).

(** The generator object: not started yet, suspended at [yield item], or
    completed. *)
Inductive Generator : Type :=
| SuspendedStart (firstPageArguments : ListArguments)
| SuspendedYield (type : string) (currentPage : Page) (nextPage : option Promise)
| Completed.

Inductive IteratorResult : Type :=
| Value (item : R)
| Done
| Raised (thrown : Thrown).

Definition pending (nextPage : option Promise) : nat :=
  match nextPage with
  | Some _ => 1
  | None => 0
  end.

(** The two loops, entered at [currentPage.shift()], up to the next [yield],
    [return] or exception.  After a page is swapped in, [nextPage] is
    [null]. *)
Equations? loop (type : string) (currentPage : Page) (nextPage : option Promise)
  : IteratorResult * Generator * Datatypes.list Event by wf (pending nextPage) lt :=
loop type currentPage nextPage with items currentPage := {
  | item :: rest =>
      (Value item,
       SuspendedYield type {| items := rest; links := links currentPage |} nextPage,
       []);
  | [] with nextPage := {
    | None => (Done, Completed, []);
    | Some promise with server promise := {
      | Threw thrown => (Raised thrown, Completed, [Awaited promise]);
      | Returned page =>
          let '(result, generator, events) := loop type page None in
          (result, generator, Awaited promise :: events) } } }.
Proof. all: cbn; lia. Defined.

(** After [yield item]: "if the low water mark is hit, make a request for
    the next page". *)
Definition prefetch (type : string) (currentPage : Page) (nextPage : option Promise)
  : option Promise * Datatypes.list Event :=
  match nextPage, next (links currentPage) with
  | None, Some link =>
      if belowLowWaterMark (length (items currentPage))
      then (Some (href link, type, None), [Requested (href link, type, None)])
      else (nextPage, [])
  | _, _ => (nextPage, [])
  end.

(** [generator.next()] *)
Definition generatorNext (generator : Generator)
  : IteratorResult * Generator * Datatypes.list Event :=
  match generator with
  | SuspendedStart firstPageArguments =>
      match server firstPageArguments with
      | Threw thrown =>
          (Raised thrown, Completed,
           [Requested firstPageArguments; Awaited firstPageArguments])
      | Returned currentPage =>
          let '(result, generator, events) :=
            loop (snd (fst firstPageArguments)) currentPage None in
          (result, generator,
           Requested firstPageArguments :: Awaited firstPageArguments :: events)
      end
  | SuspendedYield type currentPage nextPage =>
      let '(nextPage, requested) := prefetch type currentPage nextPage in
      let '(result, generator, events) := loop type currentPage nextPage in
      (result, generator, (requested ++ events)%list)
  | Completed => (Done, Completed, [])
  end.

(** [generator.return()], which is what [break] in a [for await] calls: the
    generator completes where it is suspended; the function has no
    [finally]. *)
Definition generatorReturn (generator : Generator) : Generator := Completed.

(** What a consumer does with the iterator: ask for the next item, or stop. *)
Inductive Pull : Type := Next | Return.

(** The events of a consumer doing [pulls] in turn, and the generator it
    leaves behind. *)
Fixpoint consume (pulls : Datatypes.list Pull) (generator : Generator)
  : Generator * Datatypes.list Event :=
  match pulls with
  | [] => (generator, [])
  | Next :: pulls =>
      let '(_, generator, events) := generatorNext generator in
      let '(generator, later) := consume pulls generator in
      (generator, (events ++ later)%list)
  | Return :: pulls => consume pulls (generatorReturn generator)
  end.

(** [iterate(networkClient, ...firstPageArguments)] makes the generator;
    nothing runs before the first [next()]. *)
Definition iterate (firstPageArguments : ListArguments) : Generator :=
  SuspendedStart firstPageArguments.

(** The page requests among the events, in the order they were made. *)
Fixpoint requests (events : Datatypes.list Event) : Datatypes.list ListArguments :=
  match events with
  | [] => []
  | Requested arguments :: events => arguments :: requests events
  | Awaited _ :: events => requests events
  end.

(** The number of page requests made and not yet awaited. *)
Fixpoint inFlight (events : Datatypes.list Event) : Z :=
  match events with
  | [] => 0
  | Requested _ :: events => 1 + inFlight events
  | Awaited _ :: events => inFlight events - 1
  end.

(** The requests in flight a generator has to account for: one while a
    promise for the next page is held, none otherwise; a completed generator
    may leave the one it abandoned behind. *)
Definition accounts (generator : Generator) (count : Z) : Prop :=
  match generator with
  | SuspendedStart _ => count = 0
  | SuspendedYield _ _ nextPage => count = Z.of_nat (pending nextPage)
  | Completed => 0 <= count <= 1
  end.

(** The promise a suspended generator holds, if any, is the one for the page
    its current page links to. *)
Definition promiseForLinked (type : string) (currentPage : Page)
  (nextPage : option Promise) : Prop :=
  match nextPage with
  | None => True
  | Some promise =>
      exists link, next (links currentPage) = Some link /\
                   promise = (href link, type, None)
  end.
End Iterate.

Arguments Page : clear implicits.
Arguments Generator : clear implicits.
Arguments IteratorResult : clear implicits.

(** *** The iterator on pages as they can arrive

    The declared type of a page promises items that are objects and a
    [links] record.  What [list] returns at run time can fall short of
    both: an entry of the array can be [null], and [links] is [undefined]
    when the body had no [_links].  This model of [iterate] follows the
    function on such pages too: [item == undefined] ends the page at an
    entry that is [null] as it does at the end of the array, and
    [currentPage.links.next] throws a [TypeError] when there are no
    [links].  (The page is still an array, and the [href] of a link a
    string.) *)
Module Untyped.
Section Iterate.
Context {R : Type}.

(** An entry of the array is an item or [null] ([None]); [links] is [None]
    when it is [undefined]. *)
Record Page : Type := {
  items : Datatypes.list (option R);
  links : option Links
}.

Variable server : ListArguments -> Completion Page.

Inductive Generator : Type :=
| SuspendedStart (firstPageArguments : ListArguments)
| SuspendedYield (type : string) (currentPage : Page) (nextPage : option Promise)
| Completed.

(** The two loops, entered at [currentPage.shift()].  The inner loop is
    left when [shift] gives [undefined], the array being empty, or gives an
    entry that is [null]; either way the entry is gone from the array. *)
Equations? loop (type : string) (currentPage : Page) (nextPage : option Promise)
  : IteratorResult R * Generator * Datatypes.list Event by wf (pending nextPage) lt :=
loop type currentPage nextPage with items currentPage := {
  | Some item :: rest =>
      (Value item,
       SuspendedYield type {| items := rest; links := links currentPage |} nextPage,
       []);
  | _ with nextPage := {
    | None => (Done, Completed, []);
    | Some promise with server promise := {
      | Threw thrown => (Raised thrown, Completed, [Awaited promise]);
      | Returned page =>
          let '(result, generator, events) := loop type page None in
          (result, generator, Awaited promise :: events) } } }.
Proof. all: cbn; lia. Defined.

(** After [yield item]:
    [nextPage == null && currentPage.links.next != null && currentPage.length < iteratorLowWaterMark].
    The second operand is evaluated only when no promise is held, and
    throws when [links] is [undefined]. *)
Definition prefetch (type : string) (currentPage : Page) (nextPage : option Promise)
  : Completion (option Promise * Datatypes.list Event) :=
  match nextPage with
  | Some _ => Returned (nextPage, [])
  | None =>
      match links currentPage with
      | None => Threw TypeError
      | Some links =>
          match next links with
          | Some link =>
              if belowLowWaterMark (length (items currentPage))
              then Returned (Some (href link, type, None),
                             [Requested (href link, type, None)])
              else Returned (None, [])
          | None => Returned (None, [])
          end
      end
  end.

(** [generator.next()] *)
Definition generatorNext (generator : Generator)
  : IteratorResult R * Generator * Datatypes.list Event :=
  match generator with
  | SuspendedStart firstPageArguments =>
      match server firstPageArguments with
      | Threw thrown =>
          (Raised thrown, Completed,
           [Requested firstPageArguments; Awaited firstPageArguments])
      | Returned currentPage =>
          let '(result, generator, events) :=
            loop (snd (fst firstPageArguments)) currentPage None in
          (result, generator,
           Requested firstPageArguments :: Awaited firstPageArguments :: events)
      end
  | SuspendedYield type currentPage nextPage =>
      match prefetch type currentPage nextPage with
      | Threw thrown => (Raised thrown, Completed, [])
      | Returned (nextPage, requested) =>
          let '(result, generator, events) := loop type currentPage nextPage in
          (result, generator, (requested ++ events)%list)
      end
  | Completed => (Done, Completed, [])
  end.

Definition iterate (firstPageArguments : ListArguments) : Generator :=
  SuspendedStart firstPageArguments.

(** The items [n] calls of [next()] give, up to the first call that gives
    none. *)
Fixpoint collect (n : nat) (generator : Generator) : Datatypes.list R :=
  match n with
  | O => []
  | S n =>
      match generatorNext generator with
      | (Value item, generator, _) => item :: collect n generator
      | _ => []
      end
  end.

(** A page as its type declares it: no entry is [null], and there are
    [links]. *)
Definition asDeclared (page : Page) : Prop :=
  Forall is_Some (items page) /\ is_Some (links page).

(** The link of a page to the next one, if it has [links] and they have
    one. *)
Definition linked (page : Page) : option Link :=
  match links page with
  | Some links => next links
  | None => None
  end.

(** The items among the entries of an array, in order. *)
Definition itemsAmong (entries : Datatypes.list (option R)) : Datatypes.list R :=
  omap id entries.

(** The items of at most [pages] pages of the resource, in order: those of
    [page], then those of the page it links to, and so on, up to a page
    that is empty, has no link, or cannot be fetched. *)
Fixpoint pagesItems (pages : nat) (type : string) (page : Page) : Datatypes.list R :=
  match pages with
  | O => []
  | S pages =>
      match items page with
      | [] => []
      | _ =>
          (itemsAmong (items page) ++
           match linked page with
           | None => []
           | Some link =>
               match server (href link, type, None) with
               | Returned following => pagesItems pages type following
               | Threw _ => []
               end
           end)%list
      end
  end.

(** The same from inside a page: the items left of it, then the pages it
    links to. *)
Definition remainingItems (pages : nat) (type : string) (currentPage : Page)
  : Datatypes.list R :=
  (itemsAmong (items currentPage) ++
   match linked currentPage with
   | None => []
   | Some link =>
       match server (href link, type, None) with
       | Returned following => pagesItems pages type following
       | Threw _ => []
       end
   end)%list.

(** The promise a suspended generator holds, if any, is the one for the page
    its current page links to. *)
Definition promiseForLinked (type : string) (currentPage : Page)
  (nextPage : option Promise) : Prop :=
  match nextPage with
  | None => True
  | Some promise =>
      exists link, linked currentPage = Some link /\
                   promise = (href link, type, None)
  end.
End Iterate.

Arguments Page : clear implicits.
Arguments Generator : clear implicits.
End Untyped.

End NetworkClient.

(* --------------------------------------------------------------------- *)
(** ** checkId and the permissions binder                                 *)
(* --------------------------------------------------------------------- *)

Module checkId.

Definition prefixes : gmap string string :=
  list_to_map
    [ ("capture", "cpt_");
      ("chargeback", "chb_");
      ("customer", "cst_");
      ("mandate", "mdt_");
      ("order", "ord_");
      ("orderline", "odl_");
      ("organization", "org_");
      ("payment", "tr_");
      ("payment-link", "pl_");
      ("profile", "pfl_");
      ("refund", "re_");
      ("shipment", "shp_");
      ("subscription", "sub_") ].

(** Returns whether the passed identifier seems plausible.  [value] is
    [None] when it is not a string; [prefixes.get(resource)] is [undefined]
    for a resource that is not a key of the map. *)
Definition checkId (value : option string) (resource : string) : bool :=
  match value with
  | None => false
  | Some value => JS.startsWith value (prefixes !! resource)
  end.

End checkId.

Module PermissionsBinder.

Definition pathSegment : string := "permissions".

(** How a call of a binder method ends: [renege] took the call over and
    nothing is returned, an error is thrown, or the request made through the
    network client is returned. *)
Inductive Outcome : Type :=
| Reneged
| Threw (error : NetworkClient.ApiError)
| NetworkGet (relativePath : string).

Section Binder.
(** [renege(this, this.get, ...arguments)] for a call with the argument
    [id]; the helper itself is not among the sources. *)
Variable renege : string -> bool.

Definition get (id : string) : Outcome :=
  if renege id then Reneged else
  if negb (checkId.checkId (Some id) "permission")
  then Threw (NetworkClient.newApiError "The permission id is invalid")
  else NetworkGet (pathSegment +:+ "/" +:+ id).
End Binder.

End PermissionsBinder.

(* --------------------------------------------------------------------- *)
(** ** Concrete servers and inputs the examples run on                    *)
(* --------------------------------------------------------------------- *)

Module Scenario.
Import Axios.

Definition respond (status : Z) (headers : gmap string string) (data : JS.value)
  : AxiosResponse.t :=
  {| AxiosResponse.status := status;
     AxiosResponse.headers := headers;
     AxiosResponse.data := data |}.

(** A server that answers every request with [503 Service Unavailable]. *)
Definition unavailable : AxiosRequestConfig.t -> Outcome :=
  fun _ => Failed (Some (respond 503 ∅ JS.VNull)).

(** A server that answers every request with [200 OK] and an empty object. *)
Definition healthy : AxiosRequestConfig.t -> Outcome :=
  fun _ => Responded (respond 200 ∅ (JS.VObject [])).

(** A [503] that asks the client to come back in five seconds. *)
Definition comeBackInFive : AxiosResponse.t :=
  respond 503 {[ "retry-after" := "5" ]} JS.VNull.

(** A server that answers every request that way. *)
Definition busy : AxiosRequestConfig.t -> Outcome :=
  fun _ => Failed (Some comeBackInFive).

(** A configuration that went through the request interceptor once. *)
Definition firstAttempt : AxiosRequestConfig.t :=
  makeRetrying.onRequest AxiosRequestConfig.empty.

(** An entropy source that hands out the same octet forever. *)
Definition stuck : Node.Entropy := fun _ => Byte.x00.

(** An Axios instance that answers every request with [204 No Content] and
    an empty body, which Axios hands over as the empty string. *)
Definition noContent : Method -> string -> option JS.value -> AxiosResponse.t + NetworkClient.Cause :=
  fun _ _ _ => inl (respond 204 ∅ (JS.VString "")).

(** An Axios instance that answers every request with [200 OK] and [body]. *)
Definition ok (body : JS.value)
  : Method -> string -> option JS.value -> AxiosResponse.t + NetworkClient.Cause :=
  fun _ _ _ => inl (respond 200 ∅ body).

(** A list response without [_embedded]. *)
Definition withoutEmbedded : JS.value :=
  JS.VObject [("count", JS.VNumber 0); ("_links", JS.VObject [])].

Definition noQuery : NetworkClient.Query -> string := fun _ => "".

(** Two pages of numbers: three items and a link to the next page, then one
    item and no link. *)
Definition payments : NetworkClient.ListArguments := ("payments", "payments", None).

Definition firstPage : NetworkClient.Page nat :=
  {| NetworkClient.items := [1; 2; 3]%nat;
     NetworkClient.links :=
       {| NetworkClient.next := Some {| NetworkClient.href := "payments?from=tr_4" |} |} |}.

Definition lastPage : NetworkClient.Page nat :=
  {| NetworkClient.items := [4]%nat;
     NetworkClient.links := {| NetworkClient.next := None |} |}.

Definition paged (arguments : NetworkClient.ListArguments)
  : NetworkClient.Completion (NetworkClient.Page nat) :=
  if String.eqb (fst (fst arguments)) "payments"
  then NetworkClient.Returned firstPage
  else NetworkClient.Returned lastPage.

(** A binder called in the promise style: [renege] leaves the call alone. *)
Definition promiseStyle : string -> bool := fun _ => false.

(** A configuration that arrives with the index of a third attempt. *)
Definition pastLimit : AxiosRequestConfig.t :=
  {| AxiosRequestConfig.method := GET;
     AxiosRequestConfig.url := "payments";
     AxiosRequestConfig.data := JS.VUndefined;
     AxiosRequestConfig.headers := ∅;
     AxiosRequestConfig._attemptIndex := Some 2 |}.

(** A caller's configuration with headers of its own, an idempotency key
    among them. *)
Definition tagged : AxiosRequestConfig.t :=
  {| AxiosRequestConfig.method := GET;
     AxiosRequestConfig.url := "";
     AxiosRequestConfig.data := JS.VString "reason";
     AxiosRequestConfig.headers :=
       {[ "X-Request-Id" := "42"; "Idempotency-Key" := "mine" ]};
     AxiosRequestConfig._attemptIndex := None |}.

(** A [503] whose Retry-After has white space before and a unit after the
    number. *)
Definition inTwoMinutes : AxiosResponse.t :=
  respond 503 {[ "retry-after" := " 120 seconds" ]} JS.VNull.

(** A list response with the items and nothing else. *)
Definition itemsOnly : JS.value :=
  JS.VObject [("_embedded", JS.VObject [("payments", JS.VArray [JS.VNumber 1])])].

(** A [dromedaryCase] that leaves names as they are. *)
Definition asGiven : string -> string := fun name => name.

(** Options with an API key, an access token, a version string and headers
    of the caller's, one of them under a name the constructor sets. *)
Definition options : NetworkClient.Options :=
  {| NetworkClient.apiKey := Some "test_dHar4XY7LxsDOtmnkVtjNVWXLSlXsM";
     NetworkClient.accessToken := Some "access_Wwvu7egPcJLLJ9Kb7J632x8wJ2zMeJ";
     NetworkClient.versionStrings := NetworkClient.Sole "ReactionCommerce/1.16.0";
     NetworkClient.axiosHeaders := {[ "Accept" := "text/html"; "X-Shop" := "7" ]} |}.

(** An entropy source whose first eighteen octets differ from the next
    eighteen. *)
Definition varied : Node.Entropy :=
  fun index => if (index <? 18)%nat then Byte.x00 else Byte.xff.

(** A [503] whose Retry-After is a number of seconds with its unit, and one
    whose Retry-After is digits run into letters. *)
Definition inFiveSeconds : AxiosResponse.t :=
  respond 503 {[ "retry-after" := "5 seconds" ]} JS.VNull.

Definition digitsThenLetters : AxiosResponse.t :=
  respond 503 {[ "retry-after" := "12abc" ]} JS.VNull.

(** The two pages of numbers as they arrive, every entry an item and
    [links] in place; and a page with a [null] among its entries. *)
Definition arrivingFirst : NetworkClient.Untyped.Page nat :=
  {| NetworkClient.Untyped.items := [Some 1; Some 2; Some 3]%nat;
     NetworkClient.Untyped.links :=
       Some {| NetworkClient.next := Some {| NetworkClient.href := "payments?from=tr_4" |} |} |}.

Definition arrivingLast : NetworkClient.Untyped.Page nat :=
  {| NetworkClient.Untyped.items := [Some 4]%nat;
     NetworkClient.Untyped.links := Some {| NetworkClient.next := None |} |}.

Definition arriving (arguments : NetworkClient.ListArguments)
  : NetworkClient.Completion (NetworkClient.Untyped.Page nat) :=
  if String.eqb (fst (fst arguments)) "payments"
  then NetworkClient.Returned arrivingFirst
  else NetworkClient.Returned arrivingLast.

Definition withNull (arguments : NetworkClient.ListArguments)
  : NetworkClient.Completion (NetworkClient.Untyped.Page nat) :=
  NetworkClient.Returned
    {| NetworkClient.Untyped.items := [Some 1; None; Some 3]%nat;
       NetworkClient.Untyped.links := Some {| NetworkClient.next := None |} |}.

Definition withoutLinks (arguments : NetworkClient.ListArguments)
  : NetworkClient.Completion (NetworkClient.Untyped.Page nat) :=
  NetworkClient.Returned
    {| NetworkClient.Untyped.items := [Some 1; Some 2]%nat;
       NetworkClient.Untyped.links := None |}.

(** A first page that is empty and yet links to a next page. *)
Definition emptyLinked : NetworkClient.Page nat :=
  {| NetworkClient.items := [];
     NetworkClient.links :=
       {| NetworkClient.next := Some {| NetworkClient.href := "payments?from=tr_4" |} |} |}.

Definition emptyFirst (arguments : NetworkClient.ListArguments)
  : NetworkClient.Completion (NetworkClient.Page nat) :=
  NetworkClient.Returned emptyLinked.

End Scenario.

(* ===================================================================== *)
(** * Part II: properties                                                 *)
(* ===================================================================== *)

(* --------------------------------------------------------------------- *)
(** ** Demand planner                                                     *)
(* --------------------------------------------------------------------- *)

Section DemandTable.
Import Demand.
Context {Item : Type}.
Implicit Types (predicate : Item -> bool) (mapping : Item -> Item).
Local Abbreviation first_limit := (limit (Item:=Item)).

(** C1: the first page request of a chain carries the limit of the demand
    table: 128 for the bare iterator and for [drop(10)], 80 for [take(80)],
    90 for [drop(10).take(80)], and so on, and never more than 250.  The
    rows with [filter] and [map] hold for every predicate and transform, in
    particular for the always-true predicate and the identity. *)
Theorem demand_table predicate mapping :
  first_limit iterate = 128%N /\
  first_limit (take 80 iterate) = 80%N /\
  first_limit (drop 10 iterate) = 128%N /\
  first_limit (take 80 (drop 10 iterate)) = 90%N /\
  first_limit (drop 10 (take 80 iterate)) = 80%N /\
  first_limit (drop 10 (take 80 (drop 10 iterate))) = 90%N /\
  first_limit (take 80 (take 100 iterate)) = 80%N /\
  first_limit (take 100 (take 80 iterate)) = 80%N /\
  first_limit (filter predicate (take 80 iterate)) = 80%N /\
  first_limit (take 80 (filter predicate iterate)) = 128%N /\
  first_limit (map mapping (take 80 iterate)) = 80%N /\
  first_limit (take 80 (map mapping iterate)) = 80%N /\
  first_limit (take 300 iterate) = 250%N /\
  first_limit (take 3218 iterate) = 250%N.
Proof. repeat split; reflexivity. Qed.
End DemandTable.

(* --------------------------------------------------------------------- *)
(** ** The retrying transport                                             *)
(* --------------------------------------------------------------------- *)

Section Retrying.
Import Axios makeRetrying.

Lemma status_class_5 response :
  (AxiosResponse.status response / 100 =? 5)%Z = bool_decide (serverError response).
Proof.
  unfold serverError.
  pose proof (Z.div_mod (AxiosResponse.status response) 100 ltac:(lia)).
  pose proof (Z.mod_pos_bound (AxiosResponse.status response) 100 ltac:(lia)).
  case_bool_decide as H5.
  - apply Z.eqb_eq. lia.
  - apply Z.eqb_neq. lia.
Qed.

Lemma onRequest_index config :
  AxiosRequestConfig._attemptIndex (onRequest config) =
  Some (default (-1) (AxiosRequestConfig._attemptIndex config) + 1).
Proof. reflexivity. Qed.

(** The response interceptor on an Axios error whose request went through
    the request interceptor. *)
Lemma onRejected_axios config response i :
  AxiosRequestConfig._attemptIndex config = Some i ->
  onRejected (AxiosError config response) =
  match response with
  | Some r =>
      if decide (i ≠ attemptLimit - 1 ∧ serverError r)
      then Reattempt (default retryDelay (parseRetryAfterHeader r)) config
      else Reject (AxiosError config response)
  | None => Reject (AxiosError config response)
  end.
Proof.
  intros Hi. unfold onRejected, checkError. rewrite Hi.
  rewrite bool_decide_eq_true_2 by eauto. cbn [isAxiosError andb negb].
  case_bool_decide as Hlim.
  - destruct response as [r|]; [|done].
    rewrite decide_False; [done|]. intros [Hne _]. congruence.
  - destruct response as [r|]; [|done].
    rewrite status_class_5. case_bool_decide as H5; cbn [negb].
    + rewrite decide_True; [done|]. split; [congruence|done].
    + rewrite decide_False; [done|]. tauto.
Qed.

Lemma onRejected_other message :
  onRejected (OtherError message) = Reject (OtherError message).
Proof. reflexivity. Qed.

Variable adapter : AxiosRequestConfig.t -> Outcome.

Lemma request_S fuel config :
  request adapter (S fuel) config =
  let config := onRequest config in
  match dispatch adapter config with
  | Fulfilled response => Some (Fulfilled response, [Send config])
  | Rejected error =>
      match onRejected error with
      | Reject error => Some (Rejected error, [Send config])
      | Reattempt delay config' =>
          match request adapter fuel config' with
          | None => None
          | Some (settled, log) => Some (settled, Send config :: Wait delay :: log)
          end
      end
  end.
Proof. reflexivity. Qed.

(** One attempt, by the index [j] the request interceptor gives it. *)
Lemma request_step fuel config j :
  default (-1) (AxiosRequestConfig._attemptIndex config) + 1 = j ->
  0 <= j < attemptLimit ->
  let c := onRequest config in
  AxiosRequestConfig._attemptIndex c = Some j /\
  ((reattempted j (adapter c) /\
    exists r, adapter c = Failed (Some r) /\
      request adapter (S fuel) config =
      match request adapter fuel c with
      | None => None
      | Some (settled, log) =>
          Some (settled,
                Send c :: Wait (default retryDelay (parseRetryAfterHeader r)) :: log)
      end)
   \/
   (~ reattempted j (adapter c) /\
    request adapter (S fuel) config = Some (dispatch adapter c, [Send c]))).
Proof.
  intros Hj Hrange c.
  assert (Hc : AxiosRequestConfig._attemptIndex c = Some j).
  { unfold c. rewrite onRequest_index. by rewrite Hj. }
  split; [done|].
  rewrite request_S. fold c. unfold dispatch, reattempted.
  destruct (adapter c) as [response|response|message] eqn:Hout.
  - right. split; [|done]. intros [(r & Hr & _) _]. discriminate.
  - rewrite (onRejected_axios _ _ _ Hc).
    destruct response as [r|].
    + destruct (decide (j ≠ attemptLimit - 1 ∧ serverError r)) as [[Hne H5]|Hno].
      * left. split; [split; [eauto|lia]|]. exists r. done.
      * right. split; [|done]. intros [(r' & Hr' & H5) Hlt].
        injection Hr' as <-. apply Hno. split; [lia|done].
    + right. split; [|done]. intros [(r & Hr & _) _]. discriminate.
  - right. split; [|done]. intros [(r & Hr & _) _]. discriminate.
Qed.

Lemma request_sends_head fuel config settled log :
  request adapter fuel config = Some (settled, log) ->
  exists log', log = Send (onRequest config) :: log'.
Proof.
  destruct fuel as [|fuel]; [done|]. rewrite request_S. cbn zeta.
  destruct (dispatch adapter (onRequest config)) as [response|error].
  - intros [= <- <-]. eauto.
  - destruct (onRejected error) as [error'|delay config'].
    + intros [= <- <-]. eauto.
    + destruct (request adapter fuel config') as [[settled' log']|]; [|done].
      intros [= <- <-]. eauto.
Qed.

(** A request whose next attempt has index [j] settles within
    [attemptLimit - j] attempts. *)
Lemma request_total fuel config j :
  default (-1) (AxiosRequestConfig._attemptIndex config) + 1 = j ->
  0 <= j < attemptLimit ->
  (Z.to_nat (attemptLimit - j) <= fuel)%nat ->
  is_Some (request adapter fuel config).
Proof.
  revert config j. induction fuel as [|fuel IH]; intros config j Hj Hrange Hfuel.
  - unfold attemptLimit in *. lia.
  - destruct (request_step fuel config j Hj Hrange) as [Hc [[Hre (r & _ & Heq)]|[_ Heq]]].
    + rewrite Heq.
      destruct (IH (onRequest config) (j + 1)) as [[settled log] Hsome].
      * by rewrite Hc.
      * destruct Hre as [_ Hlt]. lia.
      * destruct Hre as [_ Hlt]. unfold attemptLimit in *. lia.
      * rewrite Hsome. eauto.
    + rewrite Heq. eauto.
Qed.

(** The attempts of a settled request: attempt [k] of the log has index
    [j + k]; it is followed by another attempt exactly when it was
    [reattempted]; and the error of an attempt that is not followed by
    another is what the caller gets. *)
Lemma request_attempts fuel config j settled log :
  default (-1) (AxiosRequestConfig._attemptIndex config) + 1 = j ->
  0 <= j < attemptLimit ->
  request adapter fuel config = Some (settled, log) ->
  forall (k : nat) c, sends log !! k = Some c ->
    AxiosRequestConfig._attemptIndex c = Some (j + Z.of_nat k) /\
    (is_Some (sends log !! S k) <-> reattempted (j + Z.of_nat k) (adapter c)) /\
    (~ reattempted (j + Z.of_nat k) (adapter c) -> settled = dispatch adapter c).
Proof.
  revert config j settled log.
  induction fuel as [|fuel IH]; intros config j settled log Hj Hrange Hreq; [done|].
  destruct (request_step fuel config j Hj Hrange) as [Hc [[Hre (r & _ & Heq)]|[Hno Heq]]].
  - rewrite Heq in Hreq.
    destruct (request adapter fuel (onRequest config)) as [[settled' log']|] eqn:Hrec; [|done].
    injection Hreq as <- <-.
    destruct (request_sends_head _ _ _ _ Hrec) as [log'' ->].
    intros [|k] c Hk; cbn in Hk.
    + injection Hk as <-. rewrite Z.add_0_r. split; [done|]. split.
      * split; [done|]. intros _. cbn. eauto.
      * done.
    + assert (Hrange' : 0 <= j + 1 < attemptLimit) by (destruct Hre; lia).
      assert (Hj' : default (-1) (AxiosRequestConfig._attemptIndex (onRequest config)) + 1 = j + 1)
        by (by rewrite Hc).
      destruct (IH _ _ _ _ Hj' Hrange' Hrec k c Hk) as (Hi & Hiff & Hlast).
      replace (j + Z.of_nat (S k)) with (j + 1 + Z.of_nat k) by lia.
      done.
  - rewrite Heq in Hreq. injection Hreq as <- <-.
    intros [|k] c Hk; cbn in Hk; [|done].
    injection Hk as <-. rewrite Z.add_0_r. split; [done|]. split; [|done].
    split; [|done]. cbn. intros [? ?]. done.
Qed.

(** C2: a request started by the client (no attempt index yet) settles
    within three attempts.  Attempt [k] of it carries the index [k], and it
    is followed by a further attempt if and only if it obtained a server
    response whose status class is 5×× and [k + 1] is still below the attempt
    limit of 3.  A failure with no response, or with a response of another
    status class, is not followed by any attempt and is rejected to the
    caller as it is. *)
Theorem retry_iff_server_error_and_attempts_left fuel config :
  AxiosRequestConfig._attemptIndex config = None ->
  (Z.to_nat attemptLimit <= fuel)%nat ->
  exists settled log,
    request adapter fuel config = Some (settled, log) /\
    forall (k : nat) c, sends log !! k = Some c ->
      AxiosRequestConfig._attemptIndex c = Some (Z.of_nat k) /\
      (is_Some (sends log !! S k) <->
       (exists r, adapter c = Failed (Some r) /\ serverError r) /\
       Z.of_nat k + 1 < attemptLimit) /\
      (forall response, adapter c = Failed response ->
         response = None \/ (exists r, response = Some r /\ ~ serverError r) ->
         sends log !! S k = None /\ settled = Rejected (AxiosError c response)).
Proof.
  intros Hfresh Hfuel.
  assert (Hj : default (-1) (AxiosRequestConfig._attemptIndex config) + 1 = 0)
    by (by rewrite Hfresh).
  assert (Hrange : 0 <= 0 < attemptLimit) by (unfold attemptLimit; lia).
  destruct (request_total fuel config 0 Hj Hrange) as [[settled log] Hreq].
  { by rewrite Z.sub_0_r. }
  exists settled, log. split; [done|]. intros k c Hk.
  destruct (request_attempts _ _ _ _ _ Hj Hrange Hreq k c Hk) as (Hi & Hiff & Hlast).
  rewrite Z.add_0_l in *. split; [done|]. split; [done|].
  intros response Hout Hcase.
  assert (Hno : ~ reattempted (Z.of_nat k) (adapter c)).
  { intros [(r & Hr & H5) _]. rewrite Hout in Hr. injection Hr as ->.
    destruct Hcase as [|(r' & [= ->] & Hn5)]; done. }
  split.
  - apply eq_None_not_Some. by rewrite Hiff.
  - rewrite (Hlast Hno). unfold dispatch. by rewrite Hout.
Qed.

(** C3: when every attempt is answered with a 5×× response, the request is
    attempted exactly three times, with the indices 0, 1 and 2, and is then
    rejected with the error of the third attempt, response included. *)
Theorem always_server_error_three_attempts fuel config :
  AxiosRequestConfig._attemptIndex config = None ->
  (Z.to_nat attemptLimit <= fuel)%nat ->
  (forall c, exists r, adapter c = Failed (Some r) /\ serverError r) ->
  let c0 := onRequest config in
  let c1 := onRequest c0 in
  let c2 := onRequest c1 in
  exists settled log r,
    request adapter fuel config = Some (settled, log) /\
    sends log = [c0; c1; c2] /\
    AxiosRequestConfig._attemptIndex <$> sends log = [Some 0; Some 1; Some 2] /\
    adapter c2 = Failed (Some r) /\
    settled = Rejected (AxiosError c2 (Some r)).
Proof.
  intros Hfresh Hfuel Hall c0 c1 c2.
  destruct fuel as [|[|[|fuel]]]; [unfold attemptLimit in Hfuel; lia..|].
  assert (H0 : AxiosRequestConfig._attemptIndex c0 = Some 0).
  { unfold c0. rewrite onRequest_index. by rewrite Hfresh. }
  assert (H1 : AxiosRequestConfig._attemptIndex c1 = Some 1).
  { unfold c1. rewrite onRequest_index. by rewrite H0. }
  assert (H2 : AxiosRequestConfig._attemptIndex c2 = Some 2).
  { unfold c2. rewrite onRequest_index. by rewrite H1. }
  destruct (Hall c0) as (r0 & Hr0 & H50).
  destruct (Hall c1) as (r1 & Hr1 & H51).
  destruct (Hall c2) as (r2 & Hr2 & H52).
  exists (Rejected (AxiosError c2 (Some r2))).
  exists [Send c0; Wait (default retryDelay (parseRetryAfterHeader r0));
          Send c1; Wait (default retryDelay (parseRetryAfterHeader r1)); Send c2].
  exists r2. split; [|split; [reflexivity|split; [|done]]].
  2:{ change ([AxiosRequestConfig._attemptIndex c0; AxiosRequestConfig._attemptIndex c1;
               AxiosRequestConfig._attemptIndex c2] = [Some 0; Some 1; Some 2]).
      by rewrite H0, H1, H2. }
  rewrite request_S. cbn zeta. fold c0. unfold dispatch at 1. rewrite Hr0.
  rewrite (onRejected_axios _ _ _ H0), decide_True by (unfold attemptLimit; done).
  rewrite request_S. cbn zeta. fold c1. unfold dispatch at 1. rewrite Hr1.
  rewrite (onRejected_axios _ _ _ H1), decide_True by (unfold attemptLimit; done).
  rewrite request_S. cbn zeta. fold c2. unfold dispatch at 1. rewrite Hr2.
  rewrite (onRejected_axios _ _ _ H2), decide_False; [done|].
  unfold attemptLimit. intros [? _]. done.
Qed.

End Retrying.

(* --------------------------------------------------------------------- *)
(** ** The Retry-After header                                             *)
(* --------------------------------------------------------------------- *)

Section RetryAfter.
Import JS Axios makeRetrying.

Lemma append_cons c s t : String.append (String c s) t = String c (String.append s t).
Proof. reflexivity. Qed.

Lemma append_nil t : String.append "" t = t.
Proof. reflexivity. Qed.

Lemma append_assoc s t u :
  String.append (String.append s t) u = String.append s (String.append t u).
Proof. induction s as [|c s IH]; [done|]. by rewrite !append_cons, IH. Qed.

Lemma append_empty_r s : String.append s "" = s.
Proof. induction s as [|c s IH]; [done|]. by rewrite append_cons, IH. Qed.

Lemma length_append s t :
  String.length (String.append s t) = (String.length s + String.length t)%nat.
Proof.
  induction s as [|c s IH]; [done|]. rewrite append_cons. cbn [String.length].
  by rewrite IH.
Qed.

Lemma leadingDigits_plain s n :
  plainInteger s n ->
  forall acc t,
    leadingDigits acc (String.append s t) =
    leadingDigits (Some (10 ^ Z.of_nat (String.length s) * default 0 acc + n)) t.
Proof.
  induction 1 as [c Hc|s n c Hs IH Hc]; intros acc t.
  - rewrite append_cons, append_nil. cbn [leadingDigits String.length].
    rewrite Hc. do 2 f_equal; lia.
  - rewrite append_assoc, IH.
    rewrite append_cons, append_nil. cbn [leadingDigits]. rewrite Hc. do 2 f_equal.
    rewrite length_append. cbn [String.length].
    rewrite Nat2Z.inj_add, Z.pow_add_r by lia.
    change (default 0 (Some ?x)) with x. change (Z.of_nat 1) with 1.
    rewrite Z.pow_1_r. ring.
Qed.

Lemma plainInteger_head s n :
  plainInteger s n -> exists c rest, s = String c rest /\ isDigit c = true.
Proof.
  induction 1 as [c Hc|s n c Hs (c' & rest & -> & Hc') Hc];
    rewrite ?append_cons; eauto.
Qed.

Lemma digit_not_space_or_sign c :
  isDigit c = true ->
  isWhiteSpace c = false /\ Ascii.eqb c "-" = false /\ Ascii.eqb c "+" = false.
Proof.
  unfold isDigit, isWhiteSpace. intros Hc.
  apply andb_true_iff in Hc as [Hlo Hhi].
  apply Z.leb_le in Hlo, Hhi.
  split; [|split].
  - repeat (apply orb_false_iff; split); try (apply Z.eqb_neq; lia).
    apply andb_false_iff. right. apply Z.leb_gt. lia.
  - apply Ascii.eqb_neq. intros ->. vm_compute in Hlo. by destruct Hlo.
  - apply Ascii.eqb_neq. intros ->. vm_compute in Hlo. by destruct Hlo.
Qed.

(** [parseInt] reads a plain integer as the number it denotes. *)
Lemma parseInt_plain s n : plainInteger s n -> parseInt (Some s) = Some n.
Proof.
  intros Hs. destruct (plainInteger_head s n Hs) as (c & rest & Heq & Hc).
  destruct (digit_not_space_or_sign c Hc) as (Hws & Hminus & Hplus).
  unfold parseInt. cbn [ToString]. rewrite Heq. cbn [trimStart].
  rewrite Hws, Hminus, Hplus. rewrite <- Heq.
  pose proof (leadingDigits_plain s n Hs None "") as Hlead.
  rewrite append_empty_r in Hlead. rewrite Hlead. cbn. f_equal. lia.
Qed.

Lemma trimStart_split s :
  exists ws, allWhiteSpace ws = true /\ s = String.append ws (trimStart s).
Proof.
  induction s as [|c s (ws & Hws & Heq)].
  - by exists "".
  - cbn [trimStart]. destruct (isWhiteSpace c) eqn:Hc.
    + exists (String c ws). rewrite append_cons. cbn [allWhiteSpace].
      rewrite Hc, Hws. split; [done|]. by rewrite <- Heq.
    + by exists "".
Qed.

Lemma leadingDigits_some s n :
  leadingDigits None s = Some n ->
  exists c rest, s = String c rest /\ isDigit c = true.
Proof.
  destruct s as [|c rest]; [done|]. cbn [leadingDigits].
  destruct (isDigit c) eqn:Hc; [eauto|done].
Qed.

(** What [parseInt] reads as a number begins like a number. *)
Lemma parseInt_numericPrefix s n : parseInt (Some s) = Some n -> numericPrefix s.
Proof.
  unfold parseInt. cbn [ToString].
  destruct (trimStart_split s) as (ws & Hws & Heq).
  destruct (trimStart s) as [|c rest]; [done|].
  destruct (Ascii.eqb c "-") eqn:Hminus; [|destruct (Ascii.eqb c "+") eqn:Hplus].
  - apply Ascii.eqb_eq in Hminus as ->.
    destruct (leadingDigits None rest) as [m|] eqn:Hm; [|done]. intros _.
    destruct (leadingDigits_some _ _ Hm) as (d & rest' & -> & Hd).
    exists ws, "-", d, rest'. repeat split; auto.
  - apply Ascii.eqb_eq in Hplus as ->. intros Hm.
    destruct (leadingDigits_some _ _ Hm) as (d & rest' & -> & Hd).
    exists ws, "+", d, rest'. repeat split; auto.
  - intros Hm.
    destruct (leadingDigits_some _ _ Hm) as (d & rest' & [= -> ->] & Hd).
    exists ws, "", d, rest'. repeat split; auto.
Qed.

Lemma parseInt_not_numeric s : ~ numericPrefix s -> parseInt (Some s) = None.
Proof.
  intros Hno. destruct (parseInt (Some s)) as [n|] eqn:Hn; [|done].
  destruct Hno. by apply parseInt_numericPrefix in Hn.
Qed.

Lemma letter_not_digit_space_sign c :
  isLetter c = true ->
  isDigit c = false /\ isWhiteSpace c = false /\ c <> "-"%char /\ c <> "+"%char.
Proof.
  unfold isLetter, isDigit, isWhiteSpace. intros Hc.
  assert (Hn : 65 <= code c <= 90 \/ 97 <= code c <= 122).
  { apply orb_true_iff in Hc as [Hc|Hc]; apply andb_true_iff in Hc as [Hlo Hhi];
      apply Z.leb_le in Hlo, Hhi; lia. }
  split; [|split; [|split]].
  - apply andb_false_iff. right. apply Z.leb_gt. lia.
  - repeat (apply orb_false_iff; split); try (apply Z.eqb_neq; lia).
    apply andb_false_iff. right. apply Z.leb_gt. lia.
  - intros ->. change (code "-") with 45 in Hn. lia.
  - intros ->. change (code "+") with 43 in Hn. lia.
Qed.

(** A value that begins with a letter, as every HTTP-date does, does not
    begin like a number. *)
Lemma letter_first_not_numeric c rest :
  isLetter c = true -> ~ numericPrefix (String c rest).
Proof.
  intros Hc (ws & sign & d & rest' & Hws & Hsign & Hd & Heq).
  destruct (letter_not_digit_space_sign c Hc) as (Hnd & Hnw & Hnm & Hnp).
  destruct ws as [|w ws]; rewrite ?append_cons, ?append_nil in Heq.
  - destruct Hsign as [->|[->| ->]]; rewrite ?append_cons, ?append_nil in Heq;
      injection Heq as Hhead _; congruence.
  - injection Heq as Hhead _. subst w. cbn [allWhiteSpace] in Hws.
    rewrite Hnw in Hws. done.
Qed.

(** When the response interceptor schedules another attempt, the delay is
    the value of the Retry-After header times 1000 if the header holds a
    plain integer (within the range in which JavaScript numbers are exact);
    it is the default of 2000 milliseconds if the header is absent, if its
    value does not begin like a number, and in particular if the value
    begins with a letter, as an HTTP-date does. *)
Theorem retry_delay_honours_retry_after config r i :
  AxiosRequestConfig._attemptIndex config = Some i ->
  i <> attemptLimit - 1 ->
  serverError r ->
  exists delay,
    onRejected (AxiosError config (Some r)) = Reattempt delay config /\
    (forall s n,
        AxiosResponse.headers r !! "retry-after" = Some s ->
        plainInteger s n -> n * 1000 <= 2 ^ 53 ->
        delay = n * 1000) /\
    (AxiosResponse.headers r !! "retry-after" = None -> delay = 2000) /\
    (forall s,
        AxiosResponse.headers r !! "retry-after" = Some s ->
        ~ numericPrefix s ->
        delay = 2000) /\
    (forall c rest,
        AxiosResponse.headers r !! "retry-after" = Some (String c rest) ->
        isLetter c = true ->
        delay = 2000).
Proof.
  intros Hi Hne H5. eexists. split.
  { rewrite (onRejected_axios _ _ _ Hi). by rewrite decide_True. }
  unfold parseRetryAfterHeader.
  split; [|split; [|split]].
  - intros s n Hs Hplain _. rewrite Hs, (parseInt_plain _ _ Hplain). done.
  - intros ->. done.
  - intros s Hs Hno. rewrite Hs, (parseInt_not_numeric _ Hno). done.
  - intros c rest Hs Hc. rewrite Hs.
    rewrite (parseInt_not_numeric _ (letter_first_not_numeric c rest Hc)). done.
Qed.

End RetryAfter.

(* --------------------------------------------------------------------- *)
(** ** Idempotency keys                                                   *)
(* --------------------------------------------------------------------- *)

Section Base64.
Import Node.

Lemma sextets_enumerated :
  forallb (fun n => (unsextet (sextet n) =? n)%N && isBase64Char (sextet n))
          (N.of_nat <$> seq 0 64) = true.
Proof. vm_compute. reflexivity. Qed.

Lemma sextet_spec n :
  (n < 64)%N -> unsextet (sextet n) = n /\ isBase64Char (sextet n) = true.
Proof.
  intros Hn. pose proof sextets_enumerated as Hall.
  rewrite forallb_forall in Hall. specialize (Hall n).
  rewrite andb_true_iff, N.eqb_eq in Hall. apply Hall.
  apply in_map_iff. exists (N.to_nat n). split; [lia|]. apply in_seq. lia.
Qed.

Lemma sextet_inj n m : (n < 64)%N -> (m < 64)%N -> sextet n = sextet m -> n = m.
Proof.
  intros Hn Hm Heq.
  rewrite <- (proj1 (sextet_spec n Hn)), <- (proj1 (sextet_spec m Hm)). by rewrite Heq.
Qed.

Lemma to_N_inj (a b : byte) :
  Stdlib.Strings.Byte.to_N a = Stdlib.Strings.Byte.to_N b -> a = b.
Proof.
  intros Heq. apply (f_equal Stdlib.Strings.Byte.of_N) in Heq.
  rewrite !Stdlib.Strings.Byte.of_to_N in Heq. congruence.
Qed.

(** Three octets make four sextets, each below 64. *)
Lemma block_bounds (a b c : N) :
  (a < 256 -> b < 256 -> c < 256 ->
   a / 4 < 64 /\ a mod 4 * 16 + b / 16 < 64 /\ b mod 16 * 4 + c / 64 < 64 /\ c mod 64 < 64)%N.
Proof.
  intros Ha Hb Hc.
  pose proof (N.div_mod a 4 ltac:(done)). pose proof (N.mod_lt a 4 ltac:(done)).
  pose proof (N.div_mod b 16 ltac:(done)). pose proof (N.mod_lt b 16 ltac:(done)).
  pose proof (N.div_mod c 64 ltac:(done)). pose proof (N.mod_lt c 64 ltac:(done)).
  revert H H0 H1 H2 H3 H4.
  generalize (a / 4)%N (a mod 4)%N (b / 16)%N (b mod 16)%N (c / 64)%N (c mod 64)%N.
  intros. lia.
Qed.

(** Quotient and remainder of an octet, as [lia] can use them. *)
Lemma octet_split (a d : N) :
  (d <> 0 -> a = d * (a / d) + a mod d /\ a mod d < d)%N.
Proof. intros Hd. split; [by apply N.div_mod|by apply N.mod_lt]. Qed.

Lemma block_inj (a b c a' b' c' : N) :
  (a < 256 -> b < 256 -> c < 256 -> a' < 256 -> b' < 256 -> c' < 256 ->
   a / 4 = a' / 4 ->
   a mod 4 * 16 + b / 16 = a' mod 4 * 16 + b' / 16 ->
   b mod 16 * 4 + c / 64 = b' mod 16 * 4 + c' / 64 ->
   c mod 64 = c' mod 64 ->
   a = a' /\ b = b' /\ c = c')%N.
Proof.
  intros Ha Hb Hc Ha' Hb' Hc' E0 E1 E2 E3.
  destruct (octet_split a 4) as [Sa Ra]; [done|].
  destruct (octet_split a' 4) as [Sa' Ra']; [done|].
  destruct (octet_split b 16) as [Sb Rb]; [done|].
  destruct (octet_split b' 16) as [Sb' Rb']; [done|].
  destruct (octet_split c 64) as [Sc Rc]; [done|].
  destruct (octet_split c' 64) as [Sc' Rc']; [done|].
  revert Sa Ra Sa' Ra' Sb Rb Sb' Rb' Sc Rc Sc' Rc' E0 E1 E2 E3.
  generalize (a / 4)%N (a mod 4)%N (a' / 4)%N (a' mod 4)%N
             (b / 16)%N (b mod 16)%N (b' / 16)%N (b' mod 16)%N
             (c / 64)%N (c mod 64)%N (c' / 64)%N (c' mod 64)%N.
  intros. lia.
Qed.

Lemma base64_block a b c rest :
  base64 (a :: b :: c :: rest) =
  (let a := Stdlib.Strings.Byte.to_N a in
   let b := Stdlib.Strings.Byte.to_N b in
   let c := Stdlib.Strings.Byte.to_N c in
   String (sextet (a / 4)) (String (sextet (a mod 4 * 16 + b / 16))
     (String (sextet (b mod 16 * 4 + c / 64)) (String (sextet (c mod 64))
       (base64 rest)))))%N.
Proof. reflexivity. Qed.

(** Without padding, that is on whole blocks of three octets, the encoding
    has four characters of the alphabet per block and loses nothing. *)
Lemma base64_blocks k :
  forall bytes, length bytes = (3 * k)%nat ->
    String.length (base64 bytes) = (4 * k)%nat /\
    forallb isBase64Char (list_ascii_of_string (base64 bytes)) = true /\
    forall bytes', length bytes' = (3 * k)%nat ->
      base64 bytes = base64 bytes' -> bytes = bytes'.
Proof.
  induction k as [|k IH]; intros bytes Hlen.
  - destruct bytes; [|done]. repeat split. intros [|] ?; done.
  - destruct bytes as [|a [|b [|c rest]]]; try (cbn in Hlen; lia).
    assert (Hrest : length rest = (3 * k)%nat) by (cbn in Hlen; lia).
    destruct (IH rest Hrest) as (IHlen & IHchars & IHinj).
    pose proof (Stdlib.Strings.Byte.to_N_bounded a) as Ha.
    pose proof (Stdlib.Strings.Byte.to_N_bounded b) as Hb.
    pose proof (Stdlib.Strings.Byte.to_N_bounded c) as Hc.
    destruct (block_bounds (Stdlib.Strings.Byte.to_N a) (Stdlib.Strings.Byte.to_N b)
                (Stdlib.Strings.Byte.to_N c)) as (B0 & B1 & B2 & B3); [lia..|].
    rewrite base64_block. cbn zeta. split; [|split].
    + cbn [String.length]. rewrite IHlen. lia.
    + cbn [list_ascii_of_string forallb].
      rewrite (proj2 (sextet_spec _ B0)), (proj2 (sextet_spec _ B1)),
        (proj2 (sextet_spec _ B2)), (proj2 (sextet_spec _ B3)). done.
    + intros bytes' Hlen' Heq.
      destruct bytes' as [|a' [|b' [|c' rest']]]; try (cbn in Hlen'; lia).
      assert (Hrest' : length rest' = (3 * k)%nat) by (cbn in Hlen'; lia).
      pose proof (Stdlib.Strings.Byte.to_N_bounded a') as Ha'.
      pose proof (Stdlib.Strings.Byte.to_N_bounded b') as Hb'.
      pose proof (Stdlib.Strings.Byte.to_N_bounded c') as Hc'.
      destruct (block_bounds (Stdlib.Strings.Byte.to_N a') (Stdlib.Strings.Byte.to_N b')
                  (Stdlib.Strings.Byte.to_N c')) as (B0' & B1' & B2' & B3'); [lia..|].
      rewrite base64_block in Heq. cbn zeta in Heq.
      injection Heq as E0 E1 E2 E3 Erest.
      apply sextet_inj in E0, E1, E2, E3; try done.
      destruct (block_inj (Stdlib.Strings.Byte.to_N a) (Stdlib.Strings.Byte.to_N b)
                  (Stdlib.Strings.Byte.to_N c) (Stdlib.Strings.Byte.to_N a')
                  (Stdlib.Strings.Byte.to_N b') (Stdlib.Strings.Byte.to_N c'))
        as (Ea & Eb & Ec); [lia..|done|done|done|done|].
      apply to_N_inj in Ea, Eb, Ec. subst a' b' c'.
      by rewrite (IHinj rest' Hrest' Erest).
Qed.

Lemma length_randomBytes size source : length (fst (randomBytes size source)) = size.
Proof. unfold randomBytes. cbn [fst]. by rewrite length_map, length_seq. Qed.

End Base64.

Section Idempotency.
Import JS Node Axios makeRetrying.
Variable adapter : AxiosRequestConfig.t -> Outcome.

Lemma onRejected_reattempt error delay config :
  onRejected error = Reattempt delay config ->
  exists r, error = AxiosError config (Some r).
Proof.
  unfold onRejected. destruct (negb (checkError error)); [done|].
  destruct error as [config' response|message]; [|done].
  case_bool_decide; [done|]. destruct response as [r|]; [|done].
  destruct (negb _); [done|]. intros [= _ ->]. eauto.
Qed.

(** All attempts of a request carry the method and the headers it was made
    with, and there is at least one attempt. *)
Lemma request_same_headers fuel config settled log :
  request adapter fuel config = Some (settled, log) ->
  sends log <> [] /\
  Forall (fun c => AxiosRequestConfig.method c = AxiosRequestConfig.method config /\
                   AxiosRequestConfig.headers c = AxiosRequestConfig.headers config)
         (sends log).
Proof.
  revert config settled log. induction fuel as [|fuel IH]; intros config settled log; [done|].
  rewrite request_S. cbn zeta. unfold dispatch.
  destruct (adapter (onRequest config)) as [response|response|message] eqn:Hout.
  - intros [= <- <-]. cbn. split; [done|]. by repeat constructor.
  - destruct (onRejected _) as [error|delay config'] eqn:Hon.
    + intros [= <- <-]. cbn. split; [done|]. by repeat constructor.
    + apply onRejected_reattempt in Hon as (r & [= <- _]).
      destruct (request adapter fuel (onRequest config)) as [[settled' log']|] eqn:Hrec; [|done].
      intros [= <- <-]. cbn [sends]. split; [done|].
      destruct (IH _ _ _ Hrec) as [_ Hall].
      constructor; [done|]. done.
  - rewrite onRejected_other. intros [= <- <-]. cbn. split; [done|]. by repeat constructor.
Qed.

Lemma nextKey_spec source :
  String.length (nextKey source) = 24%nat /\
  forallb isBase64Char (list_ascii_of_string (nextKey source)) = true /\
  forall source',
    nextKey source = nextKey source' <->
    fst (randomBytes 18 source) = fst (randomBytes 18 source').
Proof.
  unfold nextKey.
  destruct (base64_blocks 6 (fst (randomBytes 18 source)) (length_randomBytes _ _))
    as (Hlen & Hchars & Hinj).
  split; [done|]. split; [done|]. intros source'. split.
  - apply Hinj. apply length_randomBytes.
  - by intros ->.
Qed.

Lemma withHeader_key config header key :
  header !! "Idempotency-Key" = Some key ->
  AxiosRequestConfig.headers (withHeader config header) !! "Idempotency-Key" = Some key.
Proof. intros Hkey. cbn. by apply lookup_union_Some_l. Qed.

(** One call of [post] or [delete]: the key drawn for the call, 24
    characters of the base64 alphabet, is in the Idempotency-Key header of
    each of its attempts.  Two sources give the same key exactly when the
    18 octets drawn from them are the same. *)
Theorem idempotency_key_per_logical_request fuel url data config source :
  config ≫= AxiosRequestConfig._attemptIndex = None ->
  (Z.to_nat attemptLimit <= fuel)%nat ->
  let key := nextKey source in
  let carries verb log :=
    sends log <> [] /\
    Forall (fun c => AxiosRequestConfig.method c = verb /\
                     AxiosRequestConfig.headers c !! "Idempotency-Key" = Some key)
           (sends log) in
  String.length key = 24%nat /\
  forallb isBase64Char (list_ascii_of_string key) = true /\
  (exists settled log,
      post adapter fuel url data config source =
        (Some (settled, log), snd (randomBytes 18 source)) /\
      carries POST log) /\
  (exists settled log,
      delete adapter fuel url config source =
        (Some (settled, log), snd (randomBytes 18 source)) /\
      carries DELETE log) /\
  (forall source',
      nextKey source = nextKey source' <->
      fst (randomBytes 18 source) = fst (randomBytes 18 source')).
Proof.
  intros Hfresh Hfuel key carries.
  destruct (nextKey_spec source) as (Hlen & Hchars & Hsame).
  split; [done|]. split; [done|].
  assert (Hidx : AxiosRequestConfig._attemptIndex
                   (withHeader config {[ "Idempotency-Key" := key ]}) = None).
  { destruct config as [c|]; [|done]. exact Hfresh. }
  assert (Hkey : AxiosRequestConfig.headers
                   (withHeader config {[ "Idempotency-Key" := key ]})
                 !! "Idempotency-Key" = Some key).
  { apply withHeader_key. apply lookup_singleton_eq. }
  assert (Hrange : 0 <= 0 < attemptLimit) by (unfold attemptLimit; lia).
  split; [|split; [|done]].
  - unfold post, generateIdempotencyHeader, originalPost.
    destruct (randomBytes 18 source) as [bytes source1] eqn:Hdraw.
    assert (Hk : base64 bytes = key) by (unfold key, nextKey; by rewrite Hdraw).
    rewrite Hk. cbn [snd].
    match goal with |- context [request adapter fuel ?c] => set (c0 := c) end.
    destruct (request_total adapter fuel c0 0) as [[settled log] Hreq];
      [by (unfold c0; cbn [AxiosRequestConfig._attemptIndex]; rewrite Hidx)|done|by rewrite Z.sub_0_r|].
    exists settled, log. rewrite Hreq. split; [done|].
    destruct (request_same_headers _ _ _ _ Hreq) as [Hne Hall].
    split; [done|]. eapply Forall_impl; [exact Hall|].
    intros c [Hm Hh]. split; [done|]. rewrite Hh. exact Hkey.
  - unfold delete, generateIdempotencyHeader, originalDelete.
    destruct (randomBytes 18 source) as [bytes source1] eqn:Hdraw.
    assert (Hk : base64 bytes = key) by (unfold key, nextKey; by rewrite Hdraw).
    rewrite Hk. cbn [snd].
    match goal with |- context [request adapter fuel ?c] => set (c0 := c) end.
    destruct (request_total adapter fuel c0 0) as [[settled log] Hreq];
      [by (unfold c0; cbn [AxiosRequestConfig._attemptIndex]; rewrite Hidx)|done|by rewrite Z.sub_0_r|].
    exists settled, log. rewrite Hreq. split; [done|].
    destruct (request_same_headers _ _ _ _ Hreq) as [Hne Hall].
    split; [done|]. eapply Forall_impl; [exact Hall|].
    intros c [Hm Hh]. split; [done|]. rewrite Hh. exact Hkey.
Qed.

(** One logical write, whichever the verb. *)
Lemma write_carries_its_key fuel request source :
  given request ≫= AxiosRequestConfig._attemptIndex = None ->
  (Z.to_nat attemptLimit <= fuel)%nat ->
  exists settled log,
    write adapter fuel request source =
      (Some (settled, log), snd (randomBytes 18 source)) /\
    sends log <> [] /\
    Forall (fun c => AxiosRequestConfig.method c = verb request /\
                     AxiosRequestConfig.headers c !! "Idempotency-Key"
                       = Some (nextKey source))
           (sends log).
Proof.
  intros Hfresh Hfuel. destruct request as [url data config|url config]; cbn in Hfresh.
  - destruct (idempotency_key_per_logical_request fuel url data config source Hfresh Hfuel)
      as (_ & _ & Hpost & _). exact Hpost.
  - destruct (idempotency_key_per_logical_request fuel url JS.VUndefined config source
                Hfresh Hfuel) as (_ & _ & _ & Hdelete & _). exact Hdelete.
Qed.

(** C4: every [post] and [delete] carries an Idempotency-Key header whose
    value is 24 characters of the base64 alphabet, generated once per
    logical request.  Of two logical writes made one after the other, each
    has its own key, the encoding of the 18 octets that [randomBytes] hands
    out for it (the second draws the octets after those of the first); all
    attempts of a write carry the key of that write; and, the octets drawn
    for the two being different, as random octets are, the two keys are
    different, so that no attempt of one write shares its key with an
    attempt of the other. *)
Theorem idempotency_key_fresh_per_logical_write fuel first second source :
  given first ≫= AxiosRequestConfig._attemptIndex = None ->
  given second ≫= AxiosRequestConfig._attemptIndex = None ->
  (Z.to_nat attemptLimit <= fuel)%nat ->
  let drawn1 := fst (randomBytes 18 source) in
  let source1 := snd (randomBytes 18 source) in
  let drawn2 := fst (randomBytes 18 source1) in
  drawn1 <> drawn2 ->
  exists settled1 log1 settled2 log2 key1 key2,
    write adapter fuel first source = (Some (settled1, log1), source1) /\
    write adapter fuel second source1
      = (Some (settled2, log2), snd (randomBytes 18 source1)) /\
    drawn1 = source <$> seq 0 18 /\ drawn2 = source <$> seq 18 18 /\
    key1 = base64 drawn1 /\ key2 = base64 drawn2 /\
    String.length key1 = 24%nat /\ String.length key2 = 24%nat /\
    forallb isBase64Char (list_ascii_of_string key1) = true /\
    forallb isBase64Char (list_ascii_of_string key2) = true /\
    sends log1 <> [] /\ sends log2 <> [] /\
    Forall (fun c => AxiosRequestConfig.method c = verb first /\
                     AxiosRequestConfig.headers c !! "Idempotency-Key" = Some key1)
           (sends log1) /\
    Forall (fun c => AxiosRequestConfig.method c = verb second /\
                     AxiosRequestConfig.headers c !! "Idempotency-Key" = Some key2)
           (sends log2) /\
    key1 <> key2 /\
    (forall c1 c2, c1 ∈ sends log1 -> c2 ∈ sends log2 ->
       AxiosRequestConfig.headers c1 !! "Idempotency-Key" <>
       AxiosRequestConfig.headers c2 !! "Idempotency-Key").
Proof.
  intros Hfirst Hsecond Hfuel drawn1 source1 drawn2 Hdrawn.
  destruct (write_carries_its_key fuel first source Hfirst Hfuel)
    as (settled1 & log1 & Hwrite1 & Hne1 & Hall1).
  destruct (write_carries_its_key fuel second source1 Hsecond Hfuel)
    as (settled2 & log2 & Hwrite2 & Hne2 & Hall2).
  destruct (nextKey_spec source) as (Hlen1 & Hchars1 & Hsame).
  destruct (nextKey_spec source1) as (Hlen2 & Hchars2 & _).
  assert (Hkeys : nextKey source <> nextKey source1).
  { intros Heq. apply Hdrawn. by apply Hsame. }
  exists settled1, log1, settled2, log2, (nextKey source), (nextKey source1).
  repeat (split; [done|]).
  intros c1 c2 Hc1 Hc2.
  rewrite Forall_forall in Hall1, Hall2.
  destruct (Hall1 c1 Hc1) as [_ ->]. destruct (Hall2 c2 Hc2) as [_ ->]. congruence.
Qed.

End Idempotency.

Section RetryingExamples.
Import JS Node Axios makeRetrying.

Lemma retry_iff_server_error_and_attempts_left_witness :
  AxiosRequestConfig._attemptIndex AxiosRequestConfig.empty = None /\
  (Z.to_nat attemptLimit <= 3)%nat /\
  exists settled log,
    request Scenario.unavailable 3 AxiosRequestConfig.empty = Some (settled, log) /\
    forall (k : nat) c, sends log !! k = Some c ->
      AxiosRequestConfig._attemptIndex c = Some (Z.of_nat k) /\
      (is_Some (sends log !! S k) <->
       (exists r, Scenario.unavailable c = Failed (Some r) /\ serverError r) /\
       Z.of_nat k + 1 < attemptLimit) /\
      (forall response, Scenario.unavailable c = Failed response ->
         response = None \/ (exists r, response = Some r /\ ~ serverError r) ->
         sends log !! S k = None /\ settled = Rejected (AxiosError c response)).
Proof.
  split; [reflexivity|]. split; [vm_compute; lia|].
  apply (retry_iff_server_error_and_attempts_left Scenario.unavailable 3
           AxiosRequestConfig.empty); [reflexivity|vm_compute; lia].
Defined.

Lemma always_server_error_three_attempts_witness :
  AxiosRequestConfig._attemptIndex AxiosRequestConfig.empty = None /\
  (Z.to_nat attemptLimit <= 3)%nat /\
  (forall c, exists r, Scenario.unavailable c = Failed (Some r) /\ serverError r) /\
  exists settled log r,
    request Scenario.unavailable 3 AxiosRequestConfig.empty = Some (settled, log) /\
    sends log = [onRequest AxiosRequestConfig.empty;
                 onRequest (onRequest AxiosRequestConfig.empty);
                 onRequest (onRequest (onRequest AxiosRequestConfig.empty))] /\
    AxiosRequestConfig._attemptIndex <$> sends log = [Some 0; Some 1; Some 2] /\
    Scenario.unavailable (onRequest (onRequest (onRequest AxiosRequestConfig.empty)))
      = Failed (Some r) /\
    settled = Rejected (AxiosError
                (onRequest (onRequest (onRequest AxiosRequestConfig.empty))) (Some r)).
Proof.
  assert (Hall : forall c, exists r,
             Scenario.unavailable c = Failed (Some r) /\ serverError r).
  { intros c. eexists. split; [reflexivity|]. unfold serverError. cbn. lia. }
  split; [reflexivity|]. split; [vm_compute; lia|]. split; [exact Hall|].
  apply (always_server_error_three_attempts Scenario.unavailable 3
           AxiosRequestConfig.empty); [reflexivity|vm_compute; lia|exact Hall].
Defined.

Lemma retry_delay_honours_retry_after_witness :
  AxiosRequestConfig._attemptIndex Scenario.firstAttempt = Some 0 /\
  0 <> attemptLimit - 1 /\
  serverError Scenario.comeBackInFive /\
  plainInteger "5" 5 /\
  onRejected (AxiosError Scenario.firstAttempt (Some Scenario.comeBackInFive)) =
    Reattempt 5000 Scenario.firstAttempt.
Proof.
  assert (H5 : serverError Scenario.comeBackInFive)
    by (unfold serverError; cbn; lia).
  assert (Hplain : plainInteger "5" 5) by (by apply (plain_digit "5")).
  split; [reflexivity|]. split; [vm_compute; discriminate|].
  split; [exact H5|]. split; [exact Hplain|].
  destruct (retry_delay_honours_retry_after Scenario.firstAttempt
              Scenario.comeBackInFive 0) as (delay & Hsched & Hint & _);
    [reflexivity|vm_compute; discriminate|exact H5|].
  rewrite Hsched. f_equal.
  apply (Hint "5" 5); [reflexivity|exact Hplain|vm_compute; discriminate].
Defined.

(** The fallback at work: a date in the header leaves the default delay. *)
Example retry_after_http_date :
  onRejected
    (AxiosError Scenario.firstAttempt
       (Some (Scenario.respond 503
                {[ "retry-after" := "Wed, 21 Oct 2015 07:28:00 GMT" ]} VNull))) =
  Reattempt 2000 Scenario.firstAttempt.
Proof. vm_compute. reflexivity. Qed.

(** A request to a server that keeps asking for five seconds: three
    attempts, five seconds apart. *)
Example retry_after_between_attempts :
  exists settled log,
    request Scenario.busy 3 AxiosRequestConfig.empty = Some (settled, log) /\
    waits log = [5000; 5000] /\
    AxiosRequestConfig._attemptIndex <$> sends log = [Some 0; Some 1; Some 2].
Proof. do 2 eexists. split; [vm_compute; reflexivity|]. split; reflexivity. Qed.

Lemma idempotency_key_per_logical_request_witness :
  (None ≫= AxiosRequestConfig._attemptIndex) = None /\
  (Z.to_nat attemptLimit <= 3)%nat /\
  String.length (nextKey Scenario.stuck) = 24%nat.
Proof.
  split; [reflexivity|]. split; [vm_compute; lia|].
  apply (idempotency_key_per_logical_request Scenario.healthy 3 "payments" VNull None
           Scenario.stuck); [reflexivity|vm_compute; lia].
Defined.

Lemma idempotency_key_fresh_per_logical_write_witness :
  (given (Post "payments" VNull None) ≫= AxiosRequestConfig._attemptIndex) = None /\
  (given (Delete "payments/tr_7UhSN1zuXS" None) ≫= AxiosRequestConfig._attemptIndex) = None /\
  (Z.to_nat attemptLimit <= 3)%nat /\
  fst (randomBytes 18 Scenario.varied)
    <> fst (randomBytes 18 (snd (randomBytes 18 Scenario.varied))) /\
  nextKey Scenario.varied <> nextKey (snd (randomBytes 18 Scenario.varied)).
Proof.
  assert (Hdrawn : fst (randomBytes 18 Scenario.varied)
                   <> fst (randomBytes 18 (snd (randomBytes 18 Scenario.varied))))
    by (vm_compute; discriminate).
  split; [reflexivity|]. split; [reflexivity|]. split; [vm_compute; lia|].
  split; [exact Hdrawn|].
  destruct (idempotency_key_fresh_per_logical_write Scenario.healthy 3
              (Post "payments" VNull None) (Delete "payments/tr_7UhSN1zuXS" None)
              Scenario.varied)
    as (settled1 & log1 & settled2 & log2 & key1 & key2 & _ & _ & _ & _ &
        -> & -> & _ & _ & _ & _ & _ & _ & _ & _ & Hkeys & _);
    [reflexivity|reflexivity|vm_compute; lia|exact Hdrawn|].
  exact Hkeys.
Defined.

(** The two writes of the witness on the wire: a [POST] and a [DELETE],
    each with its own key. *)
Example two_writes_two_keys :
  exists settled1 log1 source1 settled2 log2 source2,
    write Scenario.healthy 3 (Post "payments" VNull None) Scenario.varied
      = (Some (settled1, log1), source1) /\
    write Scenario.healthy 3 (Delete "payments/tr_7UhSN1zuXS" None) source1
      = (Some (settled2, log2), source2) /\
    idempotencyKeys log1 = [Some "AAAAAAAAAAAAAAAAAAAAAAAA"] /\
    idempotencyKeys log2 = [Some "////////////////////////"].
Proof.
  do 6 eexists. split; [reflexivity|]. split; [reflexivity|].
  split; vm_compute; reflexivity.
Qed.

End RetryingExamples.

(* --------------------------------------------------------------------- *)
(** ** Iterating over pages                                               *)
(* --------------------------------------------------------------------- *)

Section Iteration.
Import NetworkClient.
Context {R : Type}.
Variable server : ListArguments -> Completion (Page R).

Lemma loop_None type (currentPage : Page R) :
  loop server type currentPage None =
  match items currentPage with
  | item :: rest =>
      (Value item,
       SuspendedYield type {| items := rest; links := links currentPage |} None, [])
  | [] => (Done, Completed, [])
  end.
Proof. simp loop. destruct (items currentPage); simp loop; reflexivity. Qed.

Lemma loop_Some type (currentPage : Page R) promise :
  loop server type currentPage (Some promise) =
  match items currentPage with
  | item :: rest =>
      (Value item,
       SuspendedYield type {| items := rest; links := links currentPage |}
         (Some promise), [])
  | [] =>
      match server promise with
      | Threw thrown => (Raised thrown, Completed, [Awaited promise])
      | Returned page =>
          let '(result, generator, events) := loop server type page None in
          (result, generator, Awaited promise :: events)
      end
  end.
Proof.
  simp loop. destruct (items currentPage); simp loop; [reflexivity|].
  destruct (server promise); simp loop; reflexivity.
Qed.

Lemma belowLowWaterMark_spec length :
  belowLowWaterMark length = true <->
  (inject_Z (Z.of_nat length) < iteratorLowWaterMark)%Q.
Proof.
  unfold belowLowWaterMark. rewrite Qlt_alt.
  destruct (_ ?= _)%Q; split; congruence.
Qed.

Lemma belowLowWaterMark_le length :
  belowLowWaterMark length = true <-> (length <= 5)%nat.
Proof.
  rewrite belowLowWaterMark_spec. unfold Qlt, iteratorLowWaterMark. cbn. lia.
Qed.

(** The loops make no request; they take at most the one answer that is
    pending. *)
Lemma loop_events type (currentPage : Page R) nextPage :
  let '(_, generator, events) := loop server type currentPage nextPage in
  match nextPage with
  | None => events = [] /\ accounts generator 0
  | Some promise =>
      (events = [] /\ accounts generator 1) \/
      (events = [Awaited promise] /\ accounts generator 0)
  end.
Proof.
  destruct nextPage as [promise|].
  - rewrite loop_Some. destruct (items currentPage) as [|item rest].
    + destruct (server promise) as [page|thrown].
      * rewrite loop_None. destruct (items page); right; cbn; split; (done || lia).
      * right. cbn. split; [done|lia].
    + left. by cbn.
  - rewrite loop_None. destruct (items currentPage); cbn; split; (done || lia).
Qed.

Lemma accounts_bounds (generator : Generator R) count :
  accounts generator count -> 0 <= count <= 1.
Proof.
  destruct generator as [?|? ? [?|]|]; cbn; lia.
Qed.

Lemma inFlight_app (events later : Datatypes.list (@Event)) :
  inFlight (events ++ later) = inFlight events + inFlight later.
Proof.
  induction events as [|[?|?] events IH]; cbn [inFlight app]; lia.
Qed.

Lemma requests_app (events later : Datatypes.list (@Event)) :
  requests (events ++ later) = (requests events ++ requests later)%list.
Proof.
  induction events as [|[?|?] events IH]; cbn [requests app]; by rewrite ?IH.
Qed.

(** The request [prefetch] makes, if any. *)
Lemma prefetch_spec type (currentPage : Page R) nextPage :
  let '(nextPage', requested) := prefetch type currentPage nextPage in
  (exists link,
      nextPage = None /\ next (links currentPage) = Some link /\
      belowLowWaterMark (length (items currentPage)) = true /\
      nextPage' = Some (href link, type, None) /\
      requested = [Requested (href link, type, None)]) \/
  (~ (nextPage = None /\ next (links currentPage) <> None /\
      belowLowWaterMark (length (items currentPage)) = true) /\
   nextPage' = nextPage /\ requested = []).
Proof.
  unfold prefetch. destruct nextPage as [promise|].
  - right. split; [|done]. intros [? _]. done.
  - destruct (next (links currentPage)) as [link|].
    + destruct (belowLowWaterMark _) eqn:Hlow.
      * left. exists link. done.
      * right. split; [|done]. intros (_ & _ & ?). done.
    + right. split; [|done]. intros (_ & ? & _). done.
Qed.

(** One [next()]: the requests in flight stay between none and one at every
    point of the step. *)
Lemma generatorNext_inFlight (generator : Generator R) count :
  accounts generator count ->
  let '(_, generator', events) := generatorNext server generator in
  (forall k, 0 <= count + inFlight (take k events) <= 1) /\
  accounts generator' (count + inFlight events).
Proof.
  destruct generator as [firstPageArguments|type currentPage nextPage|]; cbn [accounts].
  - intros ->. cbn [generatorNext].
    destruct (server firstPageArguments) as [page|thrown].
    + pose proof (loop_events (snd (fst firstPageArguments)) page None) as Hloop.
      destruct (loop _ _ _ _) as [[result generator'] events].
      destruct Hloop as [-> Hacc]. split; [|exact Hacc].
      intros [|[|[|k]]]; cbn; lia.
    + split; [|cbn; lia]. intros [|[|[|k]]]; cbn; lia.
  - intros ->. cbn [generatorNext].
    pose proof (prefetch_spec type currentPage nextPage) as Hpre.
    destruct (prefetch type currentPage nextPage) as [nextPage' requested].
    pose proof (loop_events type currentPage nextPage') as Hloop.
    destruct (loop _ _ _ _) as [[result generator'] events].
    destruct Hpre as [(link & -> & _ & _ & -> & ->)|(_ & -> & ->)].
    + destruct Hloop as [[-> Hacc]|[-> Hacc]]; (split; [|exact Hacc]);
        intros [|[|[|k]]]; cbn; lia.
    + destruct nextPage as [promise|].
      * destruct Hloop as [[-> Hacc]|[-> Hacc]]; (split; [|exact Hacc]);
          intros [|[|k]]; cbn; lia.
      * destruct Hloop as [-> Hacc]. split; [|exact Hacc].
        intros [|k]; cbn; lia.
  - intros Hcount. cbn. split; [|lia]. intros [|k]; cbn; lia.
Qed.

Lemma consume_inFlight pulls :
  forall (generator : Generator R) count,
    accounts generator count ->
    forall k, 0 <= count + inFlight (take k (snd (consume server pulls generator))) <= 1.
Proof.
  induction pulls as [|[|] pulls IH]; intros generator count Hacc k.
  - cbn. rewrite take_nil. cbn. pose proof (accounts_bounds _ _ Hacc). lia.
  - cbn [consume].
    pose proof (generatorNext_inFlight generator count Hacc) as Hstep.
    destruct (generatorNext server generator) as [[result generator'] events].
    destruct Hstep as [Hprefix Hacc'].
    specialize (IH generator' _ Hacc' (k - length events)%nat).
    destruct (consume server pulls generator') as [generator'' later]. cbn [snd] in *.
    rewrite take_app, inFlight_app.
    destruct (decide (k <= length events)%nat) as [Hk|Hk].
    + replace (k - length events)%nat with 0%nat by lia. rewrite take_0. cbn [inFlight].
      specialize (Hprefix k). lia.
    + rewrite take_ge by lia. lia.
  - cbn [consume]. apply IH. cbn. by apply accounts_bounds in Hacc.
Qed.

Lemma consume_Completed pulls :
  consume server pulls (Completed (R:=R)) = (Completed, []).
Proof.
  induction pulls as [|[|] pulls IH]; [done| |exact IH].
  cbn [consume generatorNext]. by rewrite IH.
Qed.

(** C8: a consumer that takes the first item and then stops makes exactly
    one page request, the one for the first page, whatever that page holds
    (a continuation link, few items) and whatever the consumer does with the
    iterator afterwards. *)
Theorem break_after_first_item_requests_one_page firstPageArguments pulls :
  requests (snd (consume server (Next :: Return :: pulls) (iterate firstPageArguments)))
  = [firstPageArguments].
Proof.
  unfold iterate. cbn [consume generatorNext generatorReturn].
  destruct (server firstPageArguments) as [page|thrown].
  - pose proof (loop_events (snd (fst firstPageArguments)) page None) as Hloop.
    destruct (loop _ _ _ _) as [[result generator'] events].
    destruct Hloop as [-> _]. rewrite consume_Completed. reflexivity.
  - rewrite consume_Completed. reflexivity.
Qed.

(** C9: when the consumer asks for the item after one that was yielded, a
    request is made if and only if no promise for the next page is held, the
    current page links to a next page, and fewer items than the low-water
    mark of 5.5 are left in the current page; the request is then the one
    for the linked page, and it is the only one.  The first [next()]
    requests the first page and a completed generator requests nothing.  At
    every point of every consumption, at most one request has been made and
    not yet awaited. *)
Theorem next_page_requested_iff_and_one_in_flight :
  (forall type (currentPage : Page R) nextPage,
      let events := snd (generatorNext server (SuspendedYield type currentPage nextPage)) in
      (requests events <> [] <->
       nextPage = None /\
       next (links currentPage) <> None /\
       (inject_Z (Z.of_nat (length (items currentPage))) < iteratorLowWaterMark)%Q) /\
      (requests events <> [] ->
       exists link, next (links currentPage) = Some link /\
                    requests events = [(href link, type, None)])) /\
  (forall firstPageArguments,
      requests (snd (generatorNext server (SuspendedStart firstPageArguments)))
      = [firstPageArguments]) /\
  requests (snd (generatorNext server (Completed (R:=R)))) = [] /\
  (forall firstPageArguments pulls k,
      0 <= inFlight (take k (snd (consume server pulls (iterate firstPageArguments)))) <= 1).
Proof.
  split; [|split; [|split]].
  - intros type currentPage nextPage events. subst events. cbn [generatorNext].
    rewrite <- belowLowWaterMark_spec.
    pose proof (prefetch_spec type currentPage nextPage) as Hpre.
    destruct (prefetch type currentPage nextPage) as [nextPage' requested].
    pose proof (loop_events type currentPage nextPage') as Hloop.
    destruct (loop _ _ _ _) as [[result generator'] events]. cbn [snd].
    rewrite requests_app.
    assert (Hnone : requests events = []).
    { destruct nextPage' as [promise|]; [destruct Hloop as [[-> _]|[-> _]]|destruct Hloop as [-> _]]; done. }
    rewrite Hnone, app_nil_r.
    destruct Hpre as [(link & -> & Hlink & Hlow & -> & ->)|(Hno & -> & ->)].
    + cbn [requests]. split.
      * split; [intros _|done]. rewrite Hlink. done.
      * intros _. exists link. done.
    + cbn [requests]. split; [|done]. split; [done|]. intros Hyes. by destruct Hno.
  - intros firstPageArguments. cbn [generatorNext].
    destruct (server firstPageArguments) as [page|thrown]; [|done].
    pose proof (loop_events (snd (fst firstPageArguments)) page None) as Hloop.
    destruct (loop _ _ _ _) as [[result generator'] events].
    destruct Hloop as [-> _]. done.
  - done.
  - intros firstPageArguments pulls k.
    pose proof (consume_inFlight pulls (iterate firstPageArguments) 0 eq_refl k). lia.
Qed.

End Iteration.

Section IterationExamples.
Import NetworkClient.

(** Taking one item of a short first page that links to a next page, then
    stopping: one request. *)
Example break_after_first_item :
  requests (snd (consume Scenario.paged [Next; Return; Next] (iterate Scenario.payments)))
  = [Scenario.payments].
Proof. vm_compute. reflexivity. Qed.

(** Going on instead: the second [next()] finds two items left, below the
    mark, and requests the linked page. *)
Example second_item_requests_next_page :
  requests (snd (consume Scenario.paged [Next; Next] (iterate Scenario.payments)))
  = [Scenario.payments; ("payments?from=tr_4", "payments", None)].
Proof. vm_compute. reflexivity. Qed.

End IterationExamples.

(* --------------------------------------------------------------------- *)
(** ** What the calls of the network client return                        *)
(* --------------------------------------------------------------------- *)

Section Responses.
Import JS Axios.
Variable axiosInstance :
  Method -> string -> option value -> AxiosResponse.t + NetworkClient.Cause.
Variable stringifyQuery : NetworkClient.Query -> string.

(** C6 (as amended): [post] and [delete] return the body of the response,
    except that a response with status 204 is returned as [true]; [get] and
    [patch] return the body of the response whatever its status. *)
Theorem returned_value_of_single_resource_calls relativePath data query response :
  (axiosInstance POST (relativePath +:+ stringifyQuery query) (Some data) = inl response ->
   NetworkClient.post axiosInstance stringifyQuery relativePath data query =
   NetworkClient.Returned
     (if decide (AxiosResponse.status response = 204) then VBool true
      else AxiosResponse.data response)) /\
  (axiosInstance DELETE relativePath (Some data) = inl response ->
   NetworkClient.delete axiosInstance relativePath data =
   NetworkClient.Returned
     (if decide (AxiosResponse.status response = 204) then VBool true
      else AxiosResponse.data response)) /\
  (axiosInstance GET (relativePath +:+ stringifyQuery query) None = inl response ->
   NetworkClient.get axiosInstance stringifyQuery relativePath query =
   NetworkClient.Returned (AxiosResponse.data response)) /\
  (axiosInstance PATCH relativePath (Some data) = inl response ->
   NetworkClient.patch axiosInstance relativePath data =
   NetworkClient.Returned (AxiosResponse.data response)).
Proof.
  unfold NetworkClient.post, NetworkClient.delete, NetworkClient.get, NetworkClient.patch.
  repeat split; intros ->; try done.
  - case_decide as H204.
    + by rewrite H204.
    + by apply Z.eqb_neq in H204 as ->.
  - case_decide as H204.
    + by rewrite H204.
    + by apply Z.eqb_neq in H204 as ->.
Qed.

(** A body that is [undefined] or [null] is what the [try] in [list]
    catches. *)
Lemma list_nullish_body relativePath type query response :
  axiosInstance GET (relativePath +:+ stringifyQuery query) None = inl response ->
  nullish (AxiosResponse.data response) = true ->
  NetworkClient.list axiosInstance stringifyQuery relativePath type query =
  NetworkClient.Threw
    (NetworkClient.ThrownApiError
       (NetworkClient.newApiError "Received unexpected response from the server")).
Proof. unfold NetworkClient.list. by intros -> ->. Qed.

(** A body that is an object without [_embedded] gets past the [try]. *)
Lemma list_without_embedded relativePath type query response properties :
  axiosInstance GET (relativePath +:+ stringifyQuery query) None = inl response ->
  AxiosResponse.data response = VObject properties ->
  nullish (assoc "_embedded" properties) = true ->
  NetworkClient.list axiosInstance stringifyQuery relativePath type query =
  NetworkClient.Threw NetworkClient.TypeError.
Proof.
  unfold NetworkClient.list. intros -> Hdata Hno. rewrite Hdata.
  cbn [nullish JS.get]. by rewrite Hno.
Qed.

End Responses.

Section ResponseExamples.
Import JS Axios.

Lemma returned_value_of_single_resource_calls_witness :
  Scenario.noContent POST ("payments" +:+ Scenario.noQuery []) (Some VNull)
    = inl (Scenario.respond 204 ∅ (VString "")) /\
  NetworkClient.post Scenario.noContent Scenario.noQuery "payments" VNull []
    = NetworkClient.Returned (VBool true).
Proof.
  split; [reflexivity|].
  apply (returned_value_of_single_resource_calls Scenario.noContent Scenario.noQuery
           "payments" VNull [] (Scenario.respond 204 ∅ (VString ""))).
  reflexivity.
Defined.

(** C6 as stated fails for [get] and [patch]: on a 204 response with an
    empty body they return that body, the empty string, and not [true]. *)
Lemma get_and_patch_return_the_empty_body_on_204 :
  NetworkClient.get Scenario.noContent Scenario.noQuery "onboarding/me" []
    = NetworkClient.Returned (VString "") /\
  NetworkClient.patch Scenario.noContent "payments/tr_7UhSN1zuXS" (VObject [])
    = NetworkClient.Returned (VString "") /\
  NetworkClient.Returned (VString "") <> NetworkClient.Returned (VBool true).
Proof. repeat split; try reflexivity. discriminate. Qed.

(** C7 fails on the code: a 200 response whose body has no [_embedded] makes
    [list] throw a [TypeError], raised by [embedded[type]] after the [try],
    and not the [ApiError] the [try] throws for a body it cannot
    destructure. *)
Theorem list_without_embedded_throws_TypeError :
  NetworkClient.list (Scenario.ok Scenario.withoutEmbedded) Scenario.noQuery
    "payments" "payments" []
  = NetworkClient.Threw NetworkClient.TypeError /\
  NetworkClient.list (Scenario.ok Scenario.withoutEmbedded) Scenario.noQuery
    "payments" "payments" []
  <> NetworkClient.Threw
       (NetworkClient.ThrownApiError
          (NetworkClient.newApiError "Received unexpected response from the server")).
Proof. split; [reflexivity|discriminate]. Qed.

(** The same for an [_embedded] that lacks the resource key, where
    [Object.assign] is given [undefined]. *)
Example list_without_resource_key :
  NetworkClient.list (Scenario.ok (VObject [("_embedded", VObject [])])) Scenario.noQuery
    "payments" "payments" []
  = NetworkClient.Threw NetworkClient.TypeError.
Proof. reflexivity. Qed.

(** The error the [try] is there for: a body that is [null]. *)
Example list_null_body :
  NetworkClient.list (Scenario.ok VNull) Scenario.noQuery "payments" "payments" []
  = NetworkClient.Threw
      (NetworkClient.ThrownApiError
         (NetworkClient.newApiError "Received unexpected response from the server")).
Proof. reflexivity. Qed.

End ResponseExamples.

(* --------------------------------------------------------------------- *)
(** ** Permission identifiers                                             *)
(* --------------------------------------------------------------------- *)

Section Permissions.
Import checkId PermissionsBinder.
Variable renege : string -> bool.

Lemma permission_has_no_prefix : prefixes !! "permission" = None.
Proof. vm_compute. reflexivity. Qed.

Lemma checkId_permission id :
  checkId (Some id) "permission" = String.prefix "undefined" id.
Proof. unfold checkId. by rewrite permission_has_no_prefix. Qed.

(** C10: the prefix map has no entry for the kind [permission], so the
    identifier is compared with the text [undefined]: a promise-style [get]
    with an identifier that does not begin with the characters [undefined]
    throws [The permission id is invalid] and makes no request; only an
    identifier that does begin with them gets as far as the network client. *)
Theorem permission_id_invalid_unless_undefined id :
  renege id = false ->
  prefixes !! "permission" = None /\
  (String.prefix "undefined" id = false ->
   get renege id = Threw (NetworkClient.newApiError "The permission id is invalid")) /\
  (String.prefix "undefined" id = true ->
   get renege id = NetworkGet ("permissions/" +:+ id)).
Proof.
  intros Hpromise. split; [exact permission_has_no_prefix|].
  unfold get. rewrite Hpromise, checkId_permission.
  split; intros ->; reflexivity.
Qed.

End Permissions.

Section PermissionExamples.
Import checkId PermissionsBinder.

Lemma permission_id_invalid_unless_undefined_witness :
  Scenario.promiseStyle "payments.read" = false /\
  String.prefix "undefined" "payments.read" = false /\
  get Scenario.promiseStyle "payments.read"
    = Threw (NetworkClient.newApiError "The permission id is invalid").
Proof.
  split; [reflexivity|]. split; [reflexivity|].
  apply (permission_id_invalid_unless_undefined Scenario.promiseStyle "payments.read");
    reflexivity.
Defined.

(** The prefix the check works with for the kinds that are registered. *)
Example payment_id_plausible :
  checkId (Some "tr_7UhSN1zuXS") "payment" = true /\
  checkId (Some "payments.read") "payment" = false /\
  checkId None "payment" = false.
Proof. vm_compute. repeat split. Qed.

End PermissionExamples.

(* --------------------------------------------------------------------- *)
(** ** The library functions of the embedding on known values             *)
(* --------------------------------------------------------------------- *)

Section LibraryExamples.
Import JS Node.

(** The test vectors of RFC 4648. *)
Example base64_rfc4648 :
  base64 [] = "" /\
  base64 [Byte.x66] = "Zg==" /\
  base64 [Byte.x66; Byte.x6f] = "Zm8=" /\
  base64 [Byte.x66; Byte.x6f; Byte.x6f] = "Zm9v" /\
  base64 [Byte.x66; Byte.x6f; Byte.x6f; Byte.x62] = "Zm9vYg==" /\
  base64 [Byte.x66; Byte.x6f; Byte.x6f; Byte.x62; Byte.x61; Byte.x72] = "Zm9vYmFy" /\
  base64 [Byte.xfb; Byte.xff; Byte.xbf] = "+/+/".
Proof. vm_compute. repeat split. Qed.

Example parseInt_values :
  parseInt (Some "5") = Some 5 /\
  parseInt (Some "120") = Some 120 /\
  parseInt (Some "007") = Some 7 /\
  parseInt (Some "  +42") = Some 42 /\
  parseInt (Some "-3") = Some (-3) /\
  parseInt (Some "12abc") = Some 12 /\
  parseInt (Some "1.5") = Some 1 /\
  parseInt (Some "") = None /\
  parseInt (Some "- 3") = None /\
  parseInt (Some "Wed, 21 Oct 2015 07:28:00 GMT") = None /\
  parseInt None = None.
Proof. vm_compute. repeat split. Qed.

Example startsWith_undefined :
  startsWith "undefined_1" None = true /\
  startsWith "tr_7UhSN1zuXS" None = false /\
  startsWith "tr_7UhSN1zuXS" (Some "tr_") = true.
Proof. vm_compute. repeat split. Qed.

End LibraryExamples.

(* ===================================================================== *)
(** * Part III: further properties of the code                            *)
(* ===================================================================== *)

(* --------------------------------------------------------------------- *)
(** ** The run of a retried request                                       *)
(* --------------------------------------------------------------------- *)

Section RetryingRuns.
Import Axios makeRetrying.
Variable adapter : AxiosRequestConfig.t -> Outcome.

Lemma onRequest_iter_fields k config :
  let c := Nat.iter k onRequest config in
  AxiosRequestConfig.method c = AxiosRequestConfig.method config /\
  AxiosRequestConfig.url c = AxiosRequestConfig.url config /\
  AxiosRequestConfig.data c = AxiosRequestConfig.data config /\
  AxiosRequestConfig.headers c = AxiosRequestConfig.headers config.
Proof. induction k as [|k IH]; [done|]. cbn. exact IH. Qed.

(** The log of a settled request whose first attempt has index [j]: one
    timer between two attempts, each attempt the configuration after one
    more pass through the request interceptor, each timer set from the
    response of the attempt before it. *)
Lemma request_log_shape fuel config j settled log :
  default (-1) (AxiosRequestConfig._attemptIndex config) + 1 = j ->
  0 <= j < attemptLimit ->
  request adapter fuel config = Some (settled, log) ->
  (length (waits log) + 1 = length (sends log))%nat /\
  (length (sends log) <= Z.to_nat (attemptLimit - j))%nat /\
  (forall (k : nat) c, sends log !! k = Some c -> c = Nat.iter (S k) onRequest config) /\
  (forall (k : nat) d, waits log !! k = Some d ->
     exists c r, sends log !! k = Some c /\ adapter c = Failed (Some r) /\
                 serverError r /\ d = default retryDelay (parseRetryAfterHeader r)).
Proof.
  revert config j settled log.
  induction fuel as [|fuel IH]; intros config j settled log Hj Hrange Hreq; [done|].
  destruct (request_step adapter fuel config j Hj Hrange)
    as [Hc [[Hre (r & Hr & Heq)]|[Hno Heq]]].
  - rewrite Heq in Hreq.
    destruct (request adapter fuel (onRequest config)) as [[settled' log']|] eqn:Hrec; [|done].
    injection Hreq as <- <-.
    assert (Hrange' : 0 <= j + 1 < attemptLimit) by (destruct Hre; lia).
    assert (Hj' : default (-1) (AxiosRequestConfig._attemptIndex (onRequest config)) + 1 = j + 1)
      by (by rewrite Hc).
    destruct (IH _ _ _ _ Hj' Hrange' Hrec) as (Hlen & Hbound & Hsent & Hwait).
    cbn [sends waits length]. split; [lia|]. split; [unfold attemptLimit in *; lia|]. split.
    + intros [|k] c Hk; cbn in Hk.
      * by injection Hk as <-.
      * rewrite (Hsent k c Hk). by rewrite <- !Nat.iter_succ_r.
    + intros [|k] d Hk; cbn in Hk.
      * injection Hk as <-. exists (onRequest config), r.
        destruct Hre as [(r' & Hr' & H5) _]. rewrite Hr in Hr'. injection Hr' as <-.
        done.
      * destruct (Hwait k d Hk) as (c & r' & Hc' & Hrest). exists c, r'. done.
  - rewrite Heq in Hreq. injection Hreq as <- <-. cbn [sends waits length].
    split; [done|]. split; [unfold attemptLimit in *; lia|]. split.
    + intros [|k] c Hk; cbn in Hk; [|done]. by injection Hk as <-.
    + intros k d Hk. done.
Qed.

(** X1: a request the client starts settles after at least one and at most
    three attempts, whatever the server answers. *)
Theorem request_makes_one_to_three_attempts fuel config :
  AxiosRequestConfig._attemptIndex config = None ->
  (Z.to_nat attemptLimit <= fuel)%nat ->
  exists settled log,
    request adapter fuel config = Some (settled, log) /\
    (1 <= length (sends log) <= 3)%nat.
Proof.
  intros Hfresh Hfuel.
  assert (Hj : default (-1) (AxiosRequestConfig._attemptIndex config) + 1 = 0)
    by (by rewrite Hfresh).
  assert (Hrange : 0 <= 0 < attemptLimit) by (unfold attemptLimit; lia).
  destruct (request_total adapter fuel config 0 Hj Hrange) as [[settled log] Hreq].
  { by rewrite Z.sub_0_r. }
  exists settled, log. split; [done|].
  destruct (request_log_shape _ _ _ _ _ Hj Hrange Hreq) as (Hlen & Hbound & _).
  unfold attemptLimit in Hbound. lia.
Qed.

(** X2: the promise of a request settles the way its last attempt went:
    fulfilled with that attempt's response, or rejected with that attempt's
    error.  Earlier attempts leave no trace in the settlement. *)
Theorem request_settles_as_last_attempt fuel config :
  AxiosRequestConfig._attemptIndex config = None ->
  (Z.to_nat attemptLimit <= fuel)%nat ->
  exists settled log c,
    request adapter fuel config = Some (settled, log) /\
    last (sends log) = Some c /\
    settled = dispatch adapter c.
Proof.
  intros Hfresh Hfuel.
  assert (Hj : default (-1) (AxiosRequestConfig._attemptIndex config) + 1 = 0)
    by (by rewrite Hfresh).
  assert (Hrange : 0 <= 0 < attemptLimit) by (unfold attemptLimit; lia).
  destruct (request_total adapter fuel config 0 Hj Hrange) as [[settled log] Hreq].
  { by rewrite Z.sub_0_r. }
  destruct (request_sends_head _ _ _ _ _ Hreq) as [log' Hhead].
  destruct (last (sends log)) as [c|] eqn:Hlast.
  2:{ apply last_None in Hlast. rewrite Hhead in Hlast. done. }
  exists settled, log, c. split; [done|]. split; [done|].
  rewrite last_lookup in Hlast.
  destruct (request_attempts _ _ _ _ _ _ Hj Hrange Hreq _ _ Hlast) as (_ & Hiff & Hsettled).
  apply Hsettled. rewrite <- Hiff. intros [c' Hnext].
  apply lookup_lt_Some in Hnext. lia.
Qed.

(** X3: between two consecutive attempts exactly one timer is set, and its
    delay is the one computed from the response of the attempt before it:
    the Retry-After header in milliseconds, or the default delay. *)
Theorem request_waits_between_attempts fuel config :
  AxiosRequestConfig._attemptIndex config = None ->
  (Z.to_nat attemptLimit <= fuel)%nat ->
  exists settled log,
    request adapter fuel config = Some (settled, log) /\
    (length (waits log) + 1 = length (sends log))%nat /\
    forall (k : nat) d, waits log !! k = Some d ->
      exists c r, sends log !! k = Some c /\ adapter c = Failed (Some r) /\
                  d = default retryDelay (parseRetryAfterHeader r).
Proof.
  intros Hfresh Hfuel.
  assert (Hj : default (-1) (AxiosRequestConfig._attemptIndex config) + 1 = 0)
    by (by rewrite Hfresh).
  assert (Hrange : 0 <= 0 < attemptLimit) by (unfold attemptLimit; lia).
  destruct (request_total adapter fuel config 0 Hj Hrange) as [[settled log] Hreq].
  { by rewrite Z.sub_0_r. }
  exists settled, log. split; [done|].
  destruct (request_log_shape _ _ _ _ _ Hj Hrange Hreq) as (Hlen & _ & _ & Hwait).
  split; [done|]. intros k d Hk.
  destruct (Hwait k d Hk) as (c & r & Hc & Hr & _ & Hd). eauto.
Qed.

(** X4: every attempt of a request is the request as it was made: same
    method, URL, body and headers.  The attempts differ in their attempt
    index only. *)
Theorem request_attempts_repeat_the_request fuel config :
  AxiosRequestConfig._attemptIndex config = None ->
  (Z.to_nat attemptLimit <= fuel)%nat ->
  exists settled log,
    request adapter fuel config = Some (settled, log) /\
    forall (k : nat) c, sends log !! k = Some c ->
      c = {| AxiosRequestConfig.method := AxiosRequestConfig.method config;
             AxiosRequestConfig.url := AxiosRequestConfig.url config;
             AxiosRequestConfig.data := AxiosRequestConfig.data config;
             AxiosRequestConfig.headers := AxiosRequestConfig.headers config;
             AxiosRequestConfig._attemptIndex := Some (Z.of_nat k) |}.
Proof.
  intros Hfresh Hfuel.
  assert (Hj : default (-1) (AxiosRequestConfig._attemptIndex config) + 1 = 0)
    by (by rewrite Hfresh).
  assert (Hrange : 0 <= 0 < attemptLimit) by (unfold attemptLimit; lia).
  destruct (request_total adapter fuel config 0 Hj Hrange) as [[settled log] Hreq].
  { by rewrite Z.sub_0_r. }
  exists settled, log. split; [done|]. intros k c Hk.
  destruct (request_attempts _ _ _ _ _ _ Hj Hrange Hreq k c Hk) as (Hi & _).
  destruct (request_log_shape _ _ _ _ _ Hj Hrange Hreq) as (_ & _ & Hsent & _).
  pose proof (Hsent k c Hk) as Hc.
  destruct (onRequest_iter_fields (S k) config) as (Hm & Hu & Hd & Hh).
  rewrite <- Hc in Hm, Hu, Hd, Hh. rewrite Z.add_0_l in Hi.
  destruct c. cbn in *. by subst.
Qed.

(** X5: the attempt limit is an equality test on the index of the attempt.
    A configuration that arrives with an index of [attemptLimit - 1] or more
    is past that test: against a server that keeps answering 5××, its
    request is re-attempted without end and never settles. *)
Theorem request_past_the_limit_never_settles fuel config i :
  AxiosRequestConfig._attemptIndex config = Some i ->
  attemptLimit - 1 <= i ->
  (forall c, exists r, adapter c = Failed (Some r) /\ serverError r) ->
  request adapter fuel config = None.
Proof.
  intros Hi Hpast Hall. revert config i Hi Hpast.
  induction fuel as [|fuel IH]; intros config i Hi Hpast; [done|].
  rewrite request_S. cbn zeta. unfold dispatch.
  destruct (Hall (onRequest config)) as (r & -> & H5).
  assert (Hc : AxiosRequestConfig._attemptIndex (onRequest config) = Some (i + 1)).
  { rewrite onRequest_index. by rewrite Hi. }
  rewrite (onRejected_axios _ _ _ Hc), decide_True by (split; [lia|done]).
  rewrite (IH _ _ Hc) by lia. done.
Qed.

End RetryingRuns.

Section WriteRequests.
Import JS Node Axios makeRetrying.
Variable adapter : AxiosRequestConfig.t -> Outcome.



End WriteRequests.

(* --------------------------------------------------------------------- *)
(** ** What parseRetryAfterHeader makes of a header                       *)
(* --------------------------------------------------------------------- *)

Section RetryAfterValues.
Import JS Axios makeRetrying.

Lemma trimStart_app_ws ws t :
  allWhiteSpace ws = true -> trimStart (String.append ws t) = trimStart t.
Proof.
  induction ws as [|w ws IH]; [done|]. cbn [allWhiteSpace].
  intros [Hw Hws]%andb_true_iff. rewrite append_cons. cbn [trimStart].
  rewrite Hw. by apply IH.
Qed.

Lemma leadingDigits_acc v s : is_Some (leadingDigits (Some v) s).
Proof.
  revert v. induction s as [|c s IH]; intros v; cbn [leadingDigits]; [eauto|].
  destruct (isDigit c); [apply IH|eauto].
Qed.

Lemma leadingDigits_stop acc t :
  (forall c t', t = String c t' -> isDigit c = false) -> leadingDigits acc t = acc.
Proof.
  destruct t as [|c t']; [done|]. intros Hstop. cbn [leadingDigits].
  by rewrite (Hstop c t' eq_refl).
Qed.

(** The digits of a plain integer, followed by something that is not a
    digit, read as the integer. *)
Lemma leadingDigits_plain_then s n t :
  plainInteger s n ->
  (forall c t', t = String c t' -> isDigit c = false) ->
  leadingDigits None (String.append s t) = Some n.
Proof.
  intros Hs Hstop. rewrite (leadingDigits_plain s n Hs), (leadingDigits_stop _ t Hstop).
  cbn [default]. f_equal. lia.
Qed.

Lemma parseInt_ws ws t :
  allWhiteSpace ws = true -> parseInt (Some (String.append ws t)) = parseInt (Some t).
Proof. intros Hws. unfold parseInt. cbn [ToString]. by rewrite trimStart_app_ws. Qed.

Lemma parseInt_plus t : parseInt (Some (String "+" t)) = leadingDigits None t.
Proof. reflexivity. Qed.

Lemma parseInt_minus t : parseInt (Some (String "-" t)) = Z.opp <$> leadingDigits None t.
Proof. reflexivity. Qed.

Lemma parseInt_digit d t :
  isDigit d = true -> parseInt (Some (String d t)) = leadingDigits None (String d t).
Proof.
  intros Hd. destruct (digit_not_space_or_sign d Hd) as (Hdw & Hdm & Hdp).
  unfold parseInt. cbn [ToString trimStart]. by rewrite Hdw, Hdm, Hdp.
Qed.

Lemma parseInt_numeric s : numericPrefix s -> is_Some (parseInt (Some s)).
Proof.
  intros (ws & sign & d & rest & Hws & Hsign & Hd & ->).
  rewrite (parseInt_ws _ _ Hws).
  assert (Hlead : is_Some (leadingDigits None (String d rest))).
  { cbn [leadingDigits]. rewrite Hd. apply leadingDigits_acc. }
  destruct Hsign as [->|[->| ->]]; rewrite ?append_cons, append_nil.
  - by rewrite (parseInt_digit _ _ Hd).
  - by rewrite parseInt_plus.
  - rewrite parseInt_minus. destruct Hlead as [v ->]. cbn. eauto.
Qed.

(** X7: [parseRetryAfterHeader] returns [undefined], so that the default
    delay is used, exactly when the header is absent or its value does not
    begin like a number (white space, at most one sign, a digit). *)
Theorem retry_after_undefined_iff response :
  parseRetryAfterHeader response = None <->
  AxiosResponse.headers response !! "retry-after" = None \/
  exists s, AxiosResponse.headers response !! "retry-after" = Some s /\
            ~ numericPrefix s.
Proof.
  unfold parseRetryAfterHeader.
  destruct (AxiosResponse.headers response !! "retry-after") as [s|] eqn:Hs.
  - split.
    + destruct (parseInt (Some s)) as [n|] eqn:Hn; [done|]. intros _. right.
      exists s. split; [done|]. intros Hnum. apply parseInt_numeric in Hnum as [v Hv].
      congruence.
    + intros [?|(s' & [= <-] & Hno)]; [done|]. by rewrite (parseInt_not_numeric _ Hno).
  - split; [by left|done].
Qed.

(** X8: only the beginning of the header value counts.  White space before
    the number and anything after its digits are ignored, so [120 seconds]
    or [1.5] are read as 120 and 1; a sign is read as well, so a negative
    header value gives a negative delay. *)
Theorem retry_after_reads_numeric_prefix response ws s n rest :
  allWhiteSpace ws = true ->
  plainInteger s n ->
  n * 1000 <= 2 ^ 53 ->
  (forall c rest', rest = String c rest' -> isDigit c = false) ->
  let header := AxiosResponse.headers response !! "retry-after" in
  (header = Some (String.append ws (String.append s rest)) ->
   parseRetryAfterHeader response = Some (n * 1000)) /\
  (header = Some (String.append ws (String.append "+" (String.append s rest))) ->
   parseRetryAfterHeader response = Some (n * 1000)) /\
  (header = Some (String.append ws (String.append "-" (String.append s rest))) ->
   parseRetryAfterHeader response = Some (- n * 1000)).
Proof.
  intros Hws Hs _ Hstop header. subst header. unfold parseRetryAfterHeader.
  pose proof (leadingDigits_plain_then s n rest Hs Hstop) as Hlead.
  destruct (plainInteger_head s n Hs) as (d & s' & Heq & Hd).
  repeat split; intros ->; rewrite (parseInt_ws _ _ Hws).
  - by rewrite Heq, append_cons, (parseInt_digit _ _ Hd), <- append_cons, <- Heq, Hlead.
  - by rewrite append_cons, append_nil, parseInt_plus, Hlead.
  - rewrite append_cons, append_nil, parseInt_minus, Hlead. cbn. f_equal; lia.
Qed.

End RetryAfterValues.

(* --------------------------------------------------------------------- *)
(** ** The delay before a retry                                           *)
(* --------------------------------------------------------------------- *)

Section RetryDelay.
Import JS Axios makeRetrying.

Lemma allDigits_append s t :
  allDigits (String.append s t) = allDigits s && allDigits t.
Proof.
  induction s as [|c s IH]; [done|]. rewrite append_cons. cbn [allDigits].
  by rewrite IH, andb_assoc.
Qed.

Lemma plainInteger_allDigits s n : plainInteger s n -> allDigits s = true.
Proof.
  induction 1 as [c Hc|s n c Hs IH Hc].
  - cbn [allDigits]. by rewrite Hc.
  - rewrite allDigits_append, IH. cbn [allDigits]. by rewrite Hc.
Qed.

(** The value [parseRetryAfterHeader] reads from a header that begins with
    a number. *)
Lemma parseRetryAfterHeader_prefix response ws s n rest :
  allWhiteSpace ws = true ->
  plainInteger s n ->
  (forall c rest', rest = String c rest' -> isDigit c = false) ->
  let header := AxiosResponse.headers response !! "retry-after" in
  (header = Some (String.append ws (String.append s rest)) ->
   parseRetryAfterHeader response = Some (n * 1000)) /\
  (header = Some (String.append ws (String.append "+" (String.append s rest))) ->
   parseRetryAfterHeader response = Some (n * 1000)) /\
  (header = Some (String.append ws (String.append "-" (String.append s rest))) ->
   parseRetryAfterHeader response = Some (- n * 1000)).
Proof.
  intros Hws Hs Hstop header. subst header. unfold parseRetryAfterHeader.
  pose proof (leadingDigits_plain_then s n rest Hs Hstop) as Hlead.
  destruct (plainInteger_head s n Hs) as (d & s' & Heq & Hd).
  repeat split; intros ->; rewrite (parseInt_ws _ _ Hws).
  - by rewrite Heq, append_cons, (parseInt_digit _ _ Hd), <- append_cons, <- Heq, Hlead.
  - by rewrite append_cons, append_nil, parseInt_plus, Hlead.
  - rewrite append_cons, append_nil, parseInt_minus, Hlead. cbn. f_equal; lia.
Qed.

(** C5 (as amended): when another attempt is scheduled, the delay is read
    from the beginning of the Retry-After value.  If the value is, after
    optional white space and an optional sign, a plain integer followed by
    anything that is not a digit (nothing, a unit, letters), the delay is
    that integer times 1000, negated under a minus sign, within the range in
    which JavaScript numbers are exact; a value that is a plain integer and
    nothing else is the first case of this.  The default of 2000
    milliseconds is used when the header is absent or its value does not
    begin like a number, in particular when it begins with a letter, as
    every HTTP-date does. *)
Theorem retry_delay_follows_numeric_prefix config r i :
  AxiosRequestConfig._attemptIndex config = Some i ->
  i <> attemptLimit - 1 ->
  serverError r ->
  let header := AxiosResponse.headers r !! "retry-after" in
  exists delay,
    onRejected (AxiosError config (Some r)) = Reattempt delay config /\
    (forall ws s n rest,
        allWhiteSpace ws = true ->
        plainInteger s n ->
        n * 1000 <= 2 ^ 53 ->
        (forall c rest', rest = String c rest' -> isDigit c = false) ->
        (header = Some (String.append ws (String.append s rest)) ->
         delay = n * 1000) /\
        (header = Some (String.append ws (String.append "+" (String.append s rest))) ->
         delay = n * 1000) /\
        (header = Some (String.append ws (String.append "-" (String.append s rest))) ->
         delay = - n * 1000)) /\
    (forall s n,
        header = Some s -> plainInteger s n -> n * 1000 <= 2 ^ 53 ->
        delay = n * 1000) /\
    (header = None -> delay = 2000) /\
    (forall s, header = Some s -> ~ numericPrefix s -> delay = 2000) /\
    (forall c rest, header = Some (String c rest) -> isLetter c = true -> delay = 2000).
Proof.
  intros Hi Hne H5 header. eexists. split.
  { rewrite (onRejected_axios _ _ _ Hi). by rewrite decide_True. }
  split; [|split; [|split; [|split]]].
  - intros ws s n rest Hws Hs _ Hstop.
    destruct (parseRetryAfterHeader_prefix r ws s n rest Hws Hs Hstop)
      as (Hplain & Hplus & Hminus).
    repeat split; intros Hheader.
    + by rewrite (Hplain Hheader).
    + by rewrite (Hplus Hheader).
    + by rewrite (Hminus Hheader).
  - intros s n Hheader Hs _. unfold parseRetryAfterHeader. fold header.
    by rewrite Hheader, (parseInt_plain _ _ Hs).
  - intros Hheader. unfold parseRetryAfterHeader. fold header. by rewrite Hheader.
  - intros s Hheader Hno. unfold parseRetryAfterHeader. fold header.
    by rewrite Hheader, (parseInt_not_numeric _ Hno).
  - intros c rest Hheader Hc. unfold parseRetryAfterHeader. fold header.
    by rewrite Hheader, (parseInt_not_numeric _ (letter_first_not_numeric c rest Hc)).
Qed.

End RetryDelay.

Section RetryDelayExamples.
Import JS Axios makeRetrying.

Lemma retry_delay_follows_numeric_prefix_witness :
  AxiosRequestConfig._attemptIndex Scenario.firstAttempt = Some 0 /\
  0 <> attemptLimit - 1 /\
  serverError Scenario.inTwoMinutes /\
  onRejected (AxiosError Scenario.firstAttempt (Some Scenario.inTwoMinutes)) =
    Reattempt 120000 Scenario.firstAttempt.
Proof.
  assert (H5 : serverError Scenario.inTwoMinutes)
    by (unfold serverError; cbn; lia).
  assert (Hplain : plainInteger "120" 120).
  { apply (plain_more "12" 12 "0"); [|reflexivity].
    apply (plain_more "1" 1 "2"); [|reflexivity].
    by apply (plain_digit "1"). }
  split; [reflexivity|]. split; [vm_compute; discriminate|]. split; [exact H5|].
  destruct (retry_delay_follows_numeric_prefix Scenario.firstAttempt
              Scenario.inTwoMinutes 0) as (delay & Hsched & Hprefix & _);
    [reflexivity|vm_compute; discriminate|exact H5|].
  rewrite Hsched. f_equal.
  destruct (Hprefix " " "120" 120 " seconds") as (Hunsigned & _);
    [reflexivity|exact Hplain|vm_compute; discriminate| |by apply Hunsigned].
  intros c rest' [= <- _]. reflexivity.
Defined.

(** C5 as stated fails where it says that a value that is not a plain
    integer is ignored: [5 seconds] and [12abc] are no plain integers, and
    yet the delay is not the default of 2000 milliseconds but what their
    leading digits say, 5000 and 12000. *)
Lemma retry_after_with_trailing_text_is_not_ignored :
  (forall n, ~ plainInteger "5 seconds" n) /\
  (forall n, ~ plainInteger "12abc" n) /\
  onRejected (AxiosError Scenario.firstAttempt (Some Scenario.inFiveSeconds)) =
    Reattempt 5000 Scenario.firstAttempt /\
  onRejected (AxiosError Scenario.firstAttempt (Some Scenario.digitsThenLetters)) =
    Reattempt 12000 Scenario.firstAttempt /\
  5000 <> retryDelay /\ 12000 <> retryDelay.
Proof.
  split; [|split].
  - intros n Hn. apply plainInteger_allDigits in Hn. vm_compute in Hn. discriminate.
  - intros n Hn. apply plainInteger_allDigits in Hn. vm_compute in Hn. discriminate.
  - split; [vm_compute; reflexivity|]. split; [vm_compute; reflexivity|].
    split; vm_compute; discriminate.
Qed.

End RetryDelayExamples.

(* --------------------------------------------------------------------- *)
(** ** What an iteration yields                                           *)
(* --------------------------------------------------------------------- *)

Section IterationYields.
Import NetworkClient.
Context {R : Type}.
Variable server : ListArguments -> Completion (Page R).

(** X10: a page without items ends the iteration even when it links to a
    next page: the first [next()] on an empty first page reports the end and
    no request for the linked page is ever made. *)
Theorem empty_page_ends_the_iteration firstPageArguments (page : Page R) pulls :
  server firstPageArguments = Returned page ->
  items page = [] ->
  fst (fst (generatorNext server (iterate firstPageArguments))) = Done /\
  requests (snd (consume server (Next :: pulls) (iterate firstPageArguments)))
    = [firstPageArguments].
Proof.
  intros Hpage Hitems. unfold iterate. cbn [consume generatorNext].
  rewrite Hpage, loop_None, Hitems. split; [done|].
  by rewrite consume_Completed.
Qed.

End IterationYields.

(* --------------------------------------------------------------------- *)
(** ** What an iteration yields, on pages as they can arrive              *)
(* --------------------------------------------------------------------- *)

Section IterationOnArrivingPages.
Import NetworkClient.
Context {R : Type}.
Variable server : ListArguments -> Completion (Untyped.Page R).

Lemma untyped_loop_None type (currentPage : Untyped.Page R) :
  Untyped.loop server type currentPage None =
  match Untyped.items currentPage with
  | Some item :: rest =>
      (Value item,
       Untyped.SuspendedYield type
         {| Untyped.items := rest; Untyped.links := Untyped.links currentPage |} None,
       [])
  | _ => (Done, Untyped.Completed, [])
  end.
Proof.
  simp loop. destruct (Untyped.items currentPage) as [|[item|] rest];
    simp loop; reflexivity.
Qed.

Lemma untyped_loop_Some type (currentPage : Untyped.Page R) promise :
  Untyped.loop server type currentPage (Some promise) =
  match Untyped.items currentPage with
  | Some item :: rest =>
      (Value item,
       Untyped.SuspendedYield type
         {| Untyped.items := rest; Untyped.links := Untyped.links currentPage |}
         (Some promise),
       [])
  | _ =>
      match server promise with
      | Threw thrown => (Raised thrown, Untyped.Completed, [Awaited promise])
      | Returned page =>
          let '(result, generator, events) := Untyped.loop server type page None in
          (result, generator, Awaited promise :: events)
      end
  end.
Proof.
  simp loop. destruct (Untyped.items currentPage) as [|[item|] rest];
    simp loop; try reflexivity; destruct (server promise); simp loop; reflexivity.
Qed.

(** On a page as declared, the test after [yield] does not throw; it keeps
    or makes the promise for the linked page, and with five or fewer entries
    left and a link it has made it. *)
Lemma untyped_prefetch_declared type (currentPage : Untyped.Page R) nextPage :
  Untyped.asDeclared currentPage ->
  Untyped.promiseForLinked type currentPage nextPage ->
  exists nextPage' requested,
    Untyped.prefetch type currentPage nextPage = Returned (nextPage', requested) /\
    Untyped.promiseForLinked type currentPage nextPage' /\
    ((length (Untyped.items currentPage) <= 5)%nat ->
     forall link, Untyped.linked currentPage = Some link ->
                  nextPage' = Some (href link, type, None)).
Proof.
  intros [_ [links Hlinks]] Hpromise. unfold Untyped.prefetch.
  destruct nextPage as [promise|].
  - exists (Some promise), []. split; [done|]. split; [done|].
    intros _ link Hlink. destruct Hpromise as (link' & Hlink' & ->).
    rewrite Hlink in Hlink'. by injection Hlink' as <-.
  - rewrite Hlinks.
    assert (Hlinked : Untyped.linked currentPage = next links)
      by (unfold Untyped.linked; by rewrite Hlinks).
    rewrite Hlinked. destruct (next links) as [link|] eqn:Hnext.
    + destruct (belowLowWaterMark _) eqn:Hlow.
      * eexists _, _. split; [done|]. split.
        -- exists link. done.
        -- intros _ link' [= <-]. done.
      * eexists _, _. split; [done|]. split; [done|].
        intros Hfew. apply belowLowWaterMark_le in Hfew. congruence.
    + eexists _, _. split; [done|]. split; [done|]. intros _ link [=].
Qed.

Lemma untyped_pagesItems_S pages type (page : Untyped.Page R) :
  Untyped.pagesItems server (S pages) type page =
  match Untyped.items page with
  | [] => []
  | _ => Untyped.remainingItems server pages type page
  end.
Proof. reflexivity. Qed.

Lemma untyped_remainingItems_shift pages type (currentPage : Untyped.Page R) item rest :
  Untyped.items currentPage = Some item :: rest ->
  Untyped.remainingItems server pages type currentPage =
  item :: Untyped.remainingItems server pages type
            {| Untyped.items := rest; Untyped.links := Untyped.links currentPage |}.
Proof. unfold Untyped.remainingItems, Untyped.linked. cbn. by intros ->. Qed.

Lemma asDeclared_shift (currentPage : Untyped.Page R) entry rest :
  Untyped.items currentPage = entry :: rest ->
  Untyped.asDeclared currentPage ->
  is_Some entry /\
  Untyped.asDeclared
    {| Untyped.items := rest; Untyped.links := Untyped.links currentPage |}.
Proof.
  intros Hitems [Hall Hlinks]. rewrite Hitems in Hall.
  apply Forall_cons in Hall as [Hentry Hrest]. done.
Qed.

(** The server keeps to the declared type of a page. *)
Hypothesis declared :
  forall arguments page, server arguments = Returned page -> Untyped.asDeclared page.

(** A first item of the page swapped in, or the end. *)
Lemma untyped_collect_swapped n pages type (following : Untyped.Page R) :
  Untyped.asDeclared following ->
  (forall (currentPage : Untyped.Page R) nextPage,
      Untyped.asDeclared currentPage ->
      Untyped.promiseForLinked type currentPage nextPage ->
      Untyped.collect server n (Untyped.SuspendedYield type currentPage nextPage) =
      take n (Untyped.remainingItems server pages type currentPage)) ->
  match Untyped.loop server type following None with
  | (Value item, generator, _) => item :: Untyped.collect server n generator
  | _ => []
  end = take (S n) (Untyped.pagesItems server (S pages) type following).
Proof.
  intros Hdeclared IH. rewrite untyped_loop_None, untyped_pagesItems_S.
  destruct (Untyped.items following) as [|entry rest] eqn:Hitems; [done|].
  destruct (asDeclared_shift _ _ _ Hitems Hdeclared) as [[item ->] Hrest].
  rewrite (untyped_remainingItems_shift _ _ _ _ _ Hitems). cbn [take]. f_equal.
  by apply IH.
Qed.

Lemma untyped_collect_suspended n :
  forall pages type (currentPage : Untyped.Page R) nextPage,
    (n <= pages)%nat ->
    Untyped.asDeclared currentPage ->
    Untyped.promiseForLinked type currentPage nextPage ->
    Untyped.collect server n (Untyped.SuspendedYield type currentPage nextPage) =
    take n (Untyped.remainingItems server pages type currentPage).
Proof.
  induction n as [|n IH];
    intros pages type currentPage nextPage Hpages Hdeclared Hpromise; [done|].
  destruct pages as [|pages]; [lia|].
  cbn [Untyped.collect Untyped.generatorNext].
  destruct (untyped_prefetch_declared type currentPage nextPage Hdeclared Hpromise)
    as (nextPage' & requested & -> & Hpromise' & Hfew).
  destruct (Untyped.items currentPage) as [|entry rest] eqn:Hitems.
  - (* the page is used up *)
    unfold Untyped.remainingItems. rewrite Hitems.
    change (Untyped.itemsAmong (@nil (option R))) with (@nil R). cbn [app].
    destruct (Untyped.linked currentPage) as [link|] eqn:Hlink.
    + rewrite (Hfew ltac:(cbn; lia) link eq_refl).
      rewrite untyped_loop_Some, Hitems.
      destruct (server (href link, type, None)) as [following|thrown] eqn:Hserver; [|done].
      pose proof (untyped_collect_swapped n pages type following
                    (declared _ _ Hserver)) as Hswap.
      destruct (Untyped.loop server type following None) as [[result generator] events].
      rewrite <- Hswap.
      * by destruct result.
      * intros currentPage' nextPage'' Hd Hp. apply IH; [lia|done|done].
    + destruct nextPage' as [promise|].
      * destruct Hpromise' as (link & Hlink' & _). congruence.
      * by rewrite untyped_loop_None, Hitems.
  - (* the page has an entry left, an item by its type *)
    destruct (asDeclared_shift _ _ _ Hitems Hdeclared) as [[item ->] Hrest].
    rewrite (untyped_remainingItems_shift _ _ _ _ _ Hitems). cbn [take].
    assert (Hloop : Untyped.loop server type currentPage nextPage' =
              (Value item,
               Untyped.SuspendedYield type
                 {| Untyped.items := rest; Untyped.links := Untyped.links currentPage |}
                 nextPage',
               [])).
    { destruct nextPage'; [rewrite untyped_loop_Some|rewrite untyped_loop_None];
        by rewrite Hitems. }
    rewrite Hloop. f_equal. apply IH; [lia|exact Hrest|exact Hpromise'].
Qed.

(** X9: as long as the pages the server returns are as their type declares
    them (no entry is [null], [links] is there), [n] calls of [next()]
    yield the first [n] items of the resource, in the order of the pages and
    of the items within each page: the items of the first page, then those
    of the page it links to, and so on.  The iteration ends with the first
    page that is empty, has no link to a next page, or cannot be fetched. *)
Theorem iteration_yields_the_pages_in_order n firstPageArguments :
  Untyped.collect server n (Untyped.iterate firstPageArguments) =
  match server firstPageArguments with
  | Returned page =>
      take n (Untyped.pagesItems server n (snd (fst firstPageArguments)) page)
  | Threw _ => []
  end.
Proof.
  destruct n as [|n]; [by destruct (server firstPageArguments)|].
  unfold Untyped.iterate. cbn [Untyped.collect Untyped.generatorNext].
  destruct (server firstPageArguments) as [page|thrown] eqn:Hserver; [|done].
  pose proof (untyped_collect_swapped n n (snd (fst firstPageArguments)) page
                (declared _ _ Hserver)) as Hswap.
  destruct (Untyped.loop server _ page None) as [[result generator] events].
  rewrite <- Hswap.
  - by destruct result.
  - intros currentPage nextPage Hd Hp. by apply untyped_collect_suspended.
Qed.

End IterationOnArrivingPages.

Section IterationOnArrivingPagesExamples.
Import NetworkClient.

Lemma iteration_yields_the_pages_in_order_witness :
  (forall arguments page,
      Scenario.arriving arguments = Returned page -> Untyped.asDeclared page) /\
  Untyped.collect Scenario.arriving 10 (Untyped.iterate Scenario.payments)
  = [1; 2; 3; 4]%nat.
Proof.
  assert (Hdeclared : forall arguments page,
             Scenario.arriving arguments = Returned page -> Untyped.asDeclared page).
  { intros arguments page. unfold Scenario.arriving.
    destruct (String.eqb _ _); intros [= <-]; (split; [|by eexists]);
      repeat constructor; by eexists. }
  split; [exact Hdeclared|].
  rewrite (iteration_yields_the_pages_in_order Scenario.arriving Hdeclared 10
             Scenario.payments).
  reflexivity.
Defined.

(** Where a page falls short of its type, the iteration falls short too: at
    a [null] entry the page is over and what follows the entry is never
    yielded; without [links], the [next()] after the first item throws and
    the iteration is over. *)
Example pages_short_of_their_type :
  Untyped.collect Scenario.withNull 10 (Untyped.iterate Scenario.payments) = [1]%nat /\
  fst (Untyped.generatorNext Scenario.withoutLinks
         (Untyped.SuspendedYield "payments"
            {| Untyped.items := [Some 2%nat]; Untyped.links := None |} None))
  = (Raised TypeError, Untyped.Completed).
Proof. split; vm_compute; reflexivity. Qed.

End IterationOnArrivingPagesExamples.

Section IterationYieldsExamples.
Import NetworkClient.

Lemma empty_page_ends_the_iteration_witness :
  Scenario.emptyFirst Scenario.payments = Returned Scenario.emptyLinked /\
  items Scenario.emptyLinked = [] /\
  fst (fst (generatorNext Scenario.emptyFirst (iterate Scenario.payments))) = Done /\
  requests (snd (consume Scenario.emptyFirst [Next; Next; Next] (iterate Scenario.payments)))
  = [Scenario.payments].
Proof.
  split; [reflexivity|]. split; [reflexivity|].
  apply (empty_page_ends_the_iteration Scenario.emptyFirst Scenario.payments
           Scenario.emptyLinked [Next; Next]); reflexivity.
Defined.

End IterationYieldsExamples.

(* --------------------------------------------------------------------- *)
(** ** The User-Agent header and the headers of the instance              *)
(* --------------------------------------------------------------------- *)

Section UserAgentFacts.
Import JS NetworkClient.
Variable dromedaryCase : string -> string.

Lemma splitSlash_Some s before after :
  splitSlash s = Some (before, after) <->
  s = String.append before (String "/" after) /\ contains isSlash before = false.
Proof.
  split.
  - revert before. induction s as [|c s IH]; intros before; [done|].
    cbn [splitSlash]. destruct (isSlash c) eqn:Hc.
    + intros [= <- <-]. unfold isSlash in Hc. apply Ascii.eqb_eq in Hc as ->. done.
    + destruct (splitSlash s) as [[before' after']|]; [|done].
      intros [= <- <-]. destruct (IH before' eq_refl) as [-> Hno].
      rewrite append_cons. cbn [contains]. by rewrite Hc, Hno.
  - intros [-> Hno]. induction before as [|c before IH].
    + done.
    + cbn [contains] in Hno. apply orb_false_iff in Hno as [Hc Hno].
      rewrite append_cons. cbn [splitSlash]. by rewrite Hc, (IH Hno).
Qed.

Lemma splitSlash_None s : splitSlash s = None <-> contains isSlash s = false.
Proof.
  induction s as [|c s IH]; [done|]. cbn [splitSlash contains].
  destruct (isSlash c); [done|]. cbn [orb]. rewrite <- IH.
  by destruct (splitSlash s) as [[? ?]|].
Qed.

Lemma contains_or p q s :
  contains (fun c => p c || q c) s = contains p s || contains q s.
Proof.
  induction s as [|c s IH]; [done|]. cbn [contains]. rewrite IH.
  destruct (p c), (q c), (contains p s), (contains q s); done.
Qed.

Lemma eqb_empty s : String.eqb s "" = true <-> s = "".
Proof. apply String.eqb_eq. Qed.

(** X11: a version string is accepted exactly when it is a platform name, a
    slash and a version, where the name is not empty and has no slash, and
    the version is not empty and has neither a slash nor white space.  Its
    token in the header is then the name in dromedary case, a slash, and
    the version as given. *)
Theorem version_string_accepted_iff versionString token :
  versionToken dromedaryCase versionString = Fine token <->
  exists platform version,
    versionString = String.append platform (String "/" version) /\
    platform <> "" /\ version <> "" /\
    contains isSlash platform = false /\
    contains isSlash version = false /\
    contains isWhiteSpace version = false /\
    token = dromedaryCase platform +:+ "/" +:+ version.
Proof.
  unfold versionToken, execVersionString. split.
  - destruct (splitSlash versionString) as [[platform version]|] eqn:Hsplit; [|done].
    apply splitSlash_Some in Hsplit as [-> Hno].
    destruct (String.eqb platform "") eqn:Hp; [by destruct (contains isSlash version)|].
    destruct (String.eqb version "") eqn:Hv; [by destruct (contains isSlash version)|].
    rewrite contains_or. cbn [negb andb].
    destruct (contains isSlash version) eqn:Hs; [done|].
    destruct (contains isWhiteSpace version) eqn:Hw; [done|].
    cbn. intros [= <-]. exists platform, version.
    apply String.eqb_neq in Hp, Hv. done.
  - intros (platform & version & -> & Hp & Hv & Hno & Hs & Hw & ->).
    rewrite (proj2 (splitSlash_Some _ platform version)) by done.
    apply String.eqb_neq in Hp, Hv. rewrite Hp, Hv, contains_or, Hs, Hw. done.
Qed.

(** X12: the two error messages.  A string with no slash, or with more than
    one, is refused with the message that asks for a name and a version
    separated by a slash.  A string with exactly one slash that is refused
    gets the message about white space in the version, also when the
    trouble is an empty name or an empty version. *)
Theorem version_string_error_messages versionString :
  (versionToken dromedaryCase versionString = ErrorThrown needsSlash <->
   contains isSlash versionString = false \/
   exists before after,
     versionString = String.append before (String "/" after) /\
     contains isSlash before = false /\ contains isSlash after = true) /\
  (versionToken dromedaryCase versionString = ErrorThrown noWhiteSpace <->
   exists platform version,
     versionString = String.append platform (String "/" version) /\
     contains isSlash platform = false /\ contains isSlash version = false /\
     (platform = "" \/ version = "" \/ contains isWhiteSpace version = true)).
Proof.
  assert (Hdiff : needsSlash <> noWhiteSpace) by (by apply String.eqb_neq).
  unfold versionToken, execVersionString.
  destruct (splitSlash versionString) as [[platform version]|] eqn:Hsplit.
  - pose proof Hsplit as Hsp. apply splitSlash_Some in Hsp as [-> Hno].
    assert (Hinj : forall p v,
               String.append platform (String "/" version) = String.append p (String "/" v) ->
               contains isSlash p = false -> p = platform /\ v = version).
    { intros p v Heq Hp.
      pose proof (proj2 (splitSlash_Some _ p v) (conj Heq Hp)) as Hsplit'.
      rewrite Hsplit in Hsplit'. by injection Hsplit' as -> ->. }
    rewrite contains_or.
    destruct (contains isSlash version) eqn:Hs.
    + rewrite orb_true_l, andb_false_r. split.
      * split; [intros _|done]. right. exists platform, version. done.
      * split; [intros [=]; congruence|].
        intros (p & v & Heq & Hp & Hv & _).
        destruct (Hinj p v Heq Hp) as [-> ->]. congruence.
    + rewrite orb_false_l.
      destruct (negb (String.eqb platform "") && negb (String.eqb version "") &&
                negb (contains isWhiteSpace version)) eqn:Hok.
      * apply andb_true_iff in Hok as [[Hp Hv]%andb_true_iff Hw].
        apply negb_true_iff in Hp, Hv, Hw. apply String.eqb_neq in Hp, Hv.
        split; (split; [done|]).
        -- intros [Hnone|(p & v & Heq & Hp' & Hv')].
           ++ apply splitSlash_None in Hnone. congruence.
           ++ destruct (Hinj p v Heq Hp') as [-> ->]. congruence.
        -- intros (p & v & Heq & Hp' & Hv' & Hbad).
           destruct (Hinj p v Heq Hp') as [-> ->].
           destruct Hbad as [?|[?|?]]; congruence.
      * split.
        -- split; [intros [=]; congruence|].
           intros [Hnone|(p & v & Heq & Hp' & Hv')].
           ++ apply splitSlash_None in Hnone. congruence.
           ++ destruct (Hinj p v Heq Hp') as [-> ->]. congruence.
        -- split; [intros _|done]. exists platform, version.
           split; [done|]. split; [done|]. split; [done|].
           destruct (String.eqb platform "") eqn:Hp; [left; by apply String.eqb_eq|].
           destruct (String.eqb version "") eqn:Hv; [right; left; by apply String.eqb_eq|].
           right. right. cbn in Hok. by apply negb_false_iff in Hok.
  - pose proof Hsplit as Hnone. apply splitSlash_None in Hnone. split.
    + split; [by left|done].
    + split; [intros [=]; congruence|].
      intros (p & v & Heq & Hp & _).
      pose proof (proj2 (splitSlash_Some _ p v) (conj Heq Hp)). congruence.
Qed.

Lemma inOrder_all {A : Type} (results : Datatypes.list (OrError A)) values :
  Forall2 (fun result value => result = Fine value) results values ->
  inOrder results = Fine values.
Proof.
  induction 1 as [|result value results values -> _ IH]; [done|].
  cbn [inOrder]. by rewrite IH.
Qed.

Lemma inOrder_first_error {A : Type} (before : Datatypes.list (OrError A)) message after :
  Forall (fun result => exists value, result = Fine value) before ->
  inOrder (before ++ ErrorThrown message :: after) = ErrorThrown message.
Proof.
  induction 1 as [|result before [value ->] _ IH]; [done|].
  cbn [inOrder app]. by rewrite IH.
Qed.

Lemma imap_ignoring_index {A B : Type} (f : A -> B) (l : Datatypes.list A) :
  imap (fun _ value => f value) l = f <$> l.
Proof. exact (imap_const f l). Qed.

(** X13: [composeUserAgent] is all or nothing, in the order given.  If every
    version string is accepted, the header is [Node/...], [Mollie/...] and
    the tokens of the version strings in their order, separated by single
    spaces; otherwise it throws the error of the first version string that
    is refused.  Without version strings the header is the first two tokens
    alone, and a single version string counts as an array of one. *)
Theorem user_agent_all_or_first_error nodeVersion libraryVersion :
  (forall versionStrings tokens,
      Forall2 (fun versionString token =>
                 versionToken dromedaryCase versionString = Fine token)
              versionStrings tokens ->
      composeUserAgent dromedaryCase nodeVersion libraryVersion (Several versionStrings) =
      Fine (String.concat " "
              (("Node/" +:+ nodeVersion) :: ("Mollie/" +:+ libraryVersion) :: tokens))) /\
  (forall accepted refused message others,
      Forall (fun versionString =>
                exists token, versionToken dromedaryCase versionString = Fine token)
             accepted ->
      versionToken dromedaryCase refused = ErrorThrown message ->
      composeUserAgent dromedaryCase nodeVersion libraryVersion
        (Several (accepted ++ refused :: others)) = ErrorThrown message) /\
  composeUserAgent dromedaryCase nodeVersion libraryVersion Nothing =
    Fine ("Node/" +:+ nodeVersion +:+ " Mollie/" +:+ libraryVersion) /\
  (forall versionString,
      composeUserAgent dromedaryCase nodeVersion libraryVersion (Sole versionString) =
      composeUserAgent dromedaryCase nodeVersion libraryVersion (Several [versionString])).
Proof.
  unfold composeUserAgent, map. split; [|split; [|split]].
  - intros versionStrings tokens Hall. cbn beta.
    rewrite (imap_ignoring_index (versionToken dromedaryCase)).
    rewrite (inOrder_all _ tokens); [done|]. by apply Forall2_fmap_l.
  - intros accepted refused message others Hacc Href. cbn beta.
    rewrite (imap_ignoring_index (versionToken dromedaryCase)), fmap_app, fmap_cons.
    rewrite Href. rewrite inOrder_first_error; [done|]. by apply Forall_fmap.
  - cbn [inOrder String.concat]. done.
  - done.
Qed.

End UserAgentFacts.

Section InstanceHeaders.
Import JS NetworkClient.
Variable dromedaryCase : string -> string.

(** X14: the headers of the instance.  [Accept], [Accept-Encoding] and
    [Content-Type] are fixed and [Authorization] and [User-Agent] are
    composed, whatever the caller put under these names; every other header
    of the caller is passed on.  The API key is used when there is one, even
    beside an access token; without one the access token is used (the text
    [undefined] when that is absent too) and [OAuth/2.0] is appended to the
    user agent. *)
Theorem instance_headers options libraryVersion nodeVersion headers :
  constructorHeaders dromedaryCase options libraryVersion nodeVersion = Fine headers ->
  headers !! "Accept" = Some "application/hal+json" /\
  headers !! "Accept-Encoding" = Some "gzip" /\
  headers !! "Content-Type" = Some "application/json" /\
  headers !! "Authorization" =
    Some ("Bearer " +:+ match apiKey options with
                        | Some key => key
                        | None => ToString (accessToken options)
                        end) /\
  (exists userAgent,
      composeUserAgent dromedaryCase nodeVersion libraryVersion (versionStrings options)
        = Fine userAgent /\
      headers !! "User-Agent" =
        Some (match apiKey options with
              | Some _ => userAgent
              | None => userAgent +:+ " OAuth/2.0"
              end)) /\
  (forall name,
      name <> "Accept" -> name <> "Accept-Encoding" -> name <> "Content-Type" ->
      name <> "Authorization" -> name <> "User-Agent" ->
      headers !! name = axiosHeaders options !! name).
Proof.
  unfold constructorHeaders.
  destruct (composeUserAgent _ _ _ _) as [userAgent|message]; [|done].
  intros [= <-].
  destruct (apiKey options) as [key|].
  - repeat split; try (by simplify_map_eq).
    + exists userAgent. split; [done|]. by simplify_map_eq.
    + intros name ? ? ? ? ?. by simplify_map_eq.
  - repeat split; try (by simplify_map_eq).
    + exists userAgent. split; [done|]. by simplify_map_eq.
    + intros name ? ? ? ? ?. by simplify_map_eq.
Qed.

End InstanceHeaders.

(* --------------------------------------------------------------------- *)
(** ** list and listPlain                                                 *)
(* --------------------------------------------------------------------- *)

Section Lists.
Import JS Axios.
Variable axiosInstance :
  Method -> string -> option value -> AxiosResponse.t + NetworkClient.Cause.
Variable stringifyQuery : NetworkClient.Query -> string.

(** X15: what [list] does with a response, by its body.  It returns exactly
    when the body, its [_embedded] and the entry of the resource in
    [_embedded] are all neither [undefined] nor [null]; [_links] and [count]
    are passed on as they are, absent or not.  It throws the [ApiError]
    about an unexpected response exactly when the body itself is [undefined]
    or [null], and a [TypeError] exactly when the body is there but
    [_embedded] or the entry of the resource is not. *)
Theorem list_outcome_by_body relativePath type query response :
  axiosInstance GET (relativePath +:+ stringifyQuery query) None = inl response ->
  let outcome := NetworkClient.list axiosInstance stringifyQuery relativePath type query in
  let data := AxiosResponse.data response in
  let embedded := JS.get data "_embedded" in
  (forall listed,
      outcome = NetworkClient.Returned listed <->
      nullish data = false /\ nullish embedded = false /\
      nullish (JS.get embedded type) = false /\
      listed = {| NetworkClient.target := JS.get embedded type;
                  NetworkClient.listed_links := JS.get data "_links";
                  NetworkClient.listed_count := JS.get data "count" |}) /\
  (outcome = NetworkClient.Threw
               (NetworkClient.ThrownApiError
                  (NetworkClient.newApiError "Received unexpected response from the server"))
   <-> nullish data = true) /\
  (outcome = NetworkClient.Threw NetworkClient.TypeError <->
   nullish data = false /\
   (nullish embedded = true \/ nullish (JS.get embedded type) = true)).
Proof.
  intros Hresponse outcome data embedded. subst outcome.
  unfold NetworkClient.list. rewrite Hresponse. fold data. fold embedded.
  destruct (nullish data) eqn:Hdata.
  { repeat split; intros; try done; intuition congruence. }
  destruct (nullish embedded) eqn:Hembedded.
  { repeat split; intros; try done; intuition congruence. }
  destruct (nullish (JS.get embedded type)) eqn:Htarget.
  { repeat split; intros; try done; intuition congruence. }
  repeat split; intros; try done; intuition congruence.
Qed.

(** X16: [listPlain] and [list] treat a response alike, with one
    difference.  Where [list] returns, [listPlain] returns the same items;
    where [listPlain] throws, [list] throws the same.  But where [_embedded]
    is there and has no entry for the resource, [list] throws a [TypeError]
    while [listPlain] returns the missing entry, [undefined], as its
    result. *)
Theorem listPlain_agrees_with_list relativePath type query :
  let listed := NetworkClient.list axiosInstance stringifyQuery relativePath type query in
  let plain := NetworkClient.listPlain axiosInstance stringifyQuery relativePath type query in
  (forall result, listed = NetworkClient.Returned result ->
                  plain = NetworkClient.Returned (NetworkClient.target result)) /\
  (forall thrown, plain = NetworkClient.Threw thrown ->
                  listed = NetworkClient.Threw thrown) /\
  (forall items, plain = NetworkClient.Returned items ->
     if nullish items
     then listed = NetworkClient.Threw NetworkClient.TypeError
     else exists result, listed = NetworkClient.Returned result /\
                         NetworkClient.target result = items).
Proof.
  intros listed plain. subst listed plain.
  unfold NetworkClient.list, NetworkClient.listPlain.
  destruct (axiosInstance GET _ None) as [response|cause].
  2:{ repeat split; intros; congruence. }
  destruct (nullish (AxiosResponse.data response)).
  { repeat split; intros; congruence. }
  destruct (nullish (JS.get (AxiosResponse.data response) "_embedded")).
  { repeat split; intros; congruence. }
  destruct (nullish (JS.get (JS.get (AxiosResponse.data response) "_embedded") type))
    eqn:Htarget.
  - split; [done|]. split; [done|]. intros items [= <-]. by rewrite Htarget.
  - split; [by intros result [= <-]|]. split; [done|].
    intros items [= <-]. rewrite Htarget. eauto.
Qed.

End Lists.

(* --------------------------------------------------------------------- *)
(** ** The next page is requested ahead                                   *)
(* --------------------------------------------------------------------- *)

Section Prefetch.
Import NetworkClient.
Context {R : Type}.
Variable server : ListArguments -> Completion (Page R).

(** X17: the request for the next page is made ahead of need.  When
    [next()] takes an item from a buffer of five or fewer and the page links
    to a next page, the generator holds the promise for that page from then
    on: the request is on its way while the items still in the buffer are
    consumed, the last one included. *)
Theorem next_page_requested_ahead type (currentPage : Page R) nextPage item rest link :
  promiseForLinked type currentPage nextPage ->
  items currentPage = item :: rest ->
  next (links currentPage) = Some link ->
  (length (items currentPage) <= 5)%nat ->
  exists events,
    generatorNext server (SuspendedYield type currentPage nextPage) =
    (Value item,
     SuspendedYield type {| items := rest; links := links currentPage |}
       (Some (href link, type, None)),
     events).
Proof.
  intros Hpromise Hitems Hlink Hfew. cbn [generatorNext].
  pose proof (prefetch_spec type currentPage nextPage) as Hpre.
  destruct (prefetch type currentPage nextPage) as [nextPage' requested].
  assert (HnextPage : nextPage' = Some (href link, type, None)).
  { destruct Hpre as [(link' & _ & Hlink' & _ & -> & _)|(Hno & -> & _)].
    - rewrite Hlink in Hlink'. by injection Hlink' as <-.
    - destruct nextPage as [promise|].
      + destruct Hpromise as (link' & Hlink' & ->).
        rewrite Hlink in Hlink'. by injection Hlink' as <-.
      + destruct Hno. split; [done|]. split; [by rewrite Hlink|].
        by apply belowLowWaterMark_le. }
  rewrite HnextPage, loop_Some, Hitems. eauto.
Qed.

End Prefetch.

(* --------------------------------------------------------------------- *)
(** ** Plausible identifiers                                              *)
(* --------------------------------------------------------------------- *)

Section Identifiers.
Import checkId.

Lemma prefix_append p s :
  String.prefix p s = true <-> exists rest, s = String.append p rest.
Proof.
  revert s. induction p as [|a p IH]; intros s.
  - split; [intros _; by exists s|intros _; by destruct s].
  - destruct s as [|b s]; cbn [String.prefix].
    + split; [done|]. intros [rest Hrest]. done.
    + destruct (ascii_dec a b) as [->|Hab].
      * rewrite IH. split; intros [rest Hrest]; exists rest.
        -- by rewrite append_cons, Hrest.
        -- rewrite append_cons in Hrest. by injection Hrest.
      * split; [done|]. intros [rest Hrest]. rewrite append_cons in Hrest.
        injection Hrest as -> _. done.
Qed.

Lemma prefix_both p q s :
  String.prefix p s = true -> String.prefix q s = true ->
  String.prefix p q = true \/ String.prefix q p = true.
Proof.
  revert q s. induction p as [|a p IH]; intros q s; [left; by destruct q|].
  destruct q as [|b q]; [by right|].
  destruct s as [|c s]; [done|]. cbn [String.prefix].
  destruct (ascii_dec a c) as [->|]; [|done].
  destruct (ascii_dec b c) as [->|]; [|done].
  destruct (ascii_dec c c); [|done]. apply IH.
Qed.

(** Keys whose values are not prefixes of one another, as a check that can
    be run on a map. *)
Lemma prefixes_apart_in (m : gmap string string) :
  forallb (fun first =>
             forallb (fun second =>
                        implb (String.prefix (snd first) (snd second))
                              (String.eqb (fst first) (fst second)))
                     (map_to_list m))
          (map_to_list m) = true ->
  forall k p k' p',
    m !! k = Some p -> m !! k' = Some p' -> String.prefix p p' = true -> k = k'.
Proof.
  intros Hapart k p k' p' Hk Hk' Hpp.
  apply elem_of_map_to_list, list_elem_of_In in Hk, Hk'.
  rewrite forallb_forall in Hapart. specialize (Hapart _ Hk).
  rewrite forallb_forall in Hapart. specialize (Hapart _ Hk').
  cbn [fst snd] in Hapart. rewrite Hpp in Hapart. by apply String.eqb_eq.
Qed.

(** No registered prefix begins with another one. *)
Lemma prefixes_apart :
  forallb (fun first =>
             forallb (fun second =>
                        implb (String.prefix (snd first) (snd second))
                              (String.eqb (fst first) (fst second)))
                     (map_to_list prefixes))
          (map_to_list prefixes) = true.
Proof. vm_compute. reflexivity. Qed.

(** X18: an identifier is plausible for at most one of the registered kinds
    of resource: the prefixes in the table keep the kinds apart. *)
Theorem identifier_plausible_for_one_kind value kind1 kind2 :
  is_Some (prefixes !! kind1) ->
  is_Some (prefixes !! kind2) ->
  checkId value kind1 = true ->
  checkId value kind2 = true ->
  kind1 = kind2.
Proof.
  intros [p1 H1] [p2 H2]. unfold checkId, JS.startsWith.
  destruct value as [id|]; [|intros [=]]. rewrite H1, H2. cbn [JS.ToString].
  intros Hp1 Hp2.
  destruct (prefix_both _ _ _ Hp1 Hp2) as [Hpp|Hpp].
  - exact (prefixes_apart_in prefixes prefixes_apart _ _ _ _ H1 H2 Hpp).
  - symmetry. exact (prefixes_apart_in prefixes prefixes_apart _ _ _ _ H2 H1 Hpp).
Qed.

(** X19: [checkId] accepts exactly the strings that begin with the prefix of
    the kind of resource, and nothing that is not a string.  For a kind that
    has no prefix in the table, the text it looks for at the beginning is
    [undefined]. *)
Theorem checkId_accepts_iff value resource :
  checkId value resource = true <->
  exists id rest,
    value = Some id /\
    id = String.append (default "undefined" (prefixes !! resource)) rest.
Proof.
  unfold checkId, JS.startsWith. destruct value as [id|].
  - rewrite prefix_append. split.
    + intros [rest Hrest]. exists id, rest. split; [done|].
      by destruct (prefixes !! resource).
    + intros (id' & rest & [= <-] & Hrest). exists rest.
      by destruct (prefixes !! resource).
  - split; [done|]. intros (id & rest & [=] & _).
Qed.

End Identifiers.

(* --------------------------------------------------------------------- *)
(** ** The further properties at work                                     *)
(* --------------------------------------------------------------------- *)

Section FurtherExamples.
Import JS Node Axios makeRetrying.

Lemma request_makes_one_to_three_attempts_witness :
  AxiosRequestConfig._attemptIndex AxiosRequestConfig.empty = None /\
  (Z.to_nat attemptLimit <= 3)%nat /\
  exists settled log,
    request Scenario.unavailable 3 AxiosRequestConfig.empty = Some (settled, log) /\
    (1 <= length (sends log) <= 3)%nat.
Proof.
  split; [reflexivity|]. split; [vm_compute; lia|].
  apply (request_makes_one_to_three_attempts Scenario.unavailable 3
           AxiosRequestConfig.empty); [reflexivity|vm_compute; lia].
Defined.

Lemma request_settles_as_last_attempt_witness :
  AxiosRequestConfig._attemptIndex AxiosRequestConfig.empty = None /\
  (Z.to_nat attemptLimit <= 3)%nat /\
  exists settled log c,
    request Scenario.healthy 3 AxiosRequestConfig.empty = Some (settled, log) /\
    last (sends log) = Some c /\
    settled = dispatch Scenario.healthy c.
Proof.
  split; [reflexivity|]. split; [vm_compute; lia|].
  apply (request_settles_as_last_attempt Scenario.healthy 3
           AxiosRequestConfig.empty); [reflexivity|vm_compute; lia].
Defined.

Lemma request_waits_between_attempts_witness :
  AxiosRequestConfig._attemptIndex AxiosRequestConfig.empty = None /\
  (Z.to_nat attemptLimit <= 3)%nat /\
  exists settled log,
    request Scenario.busy 3 AxiosRequestConfig.empty = Some (settled, log) /\
    (length (waits log) + 1 = length (sends log))%nat /\
    forall (k : nat) d, waits log !! k = Some d ->
      exists c r, sends log !! k = Some c /\ Scenario.busy c = Failed (Some r) /\
                  d = default retryDelay (parseRetryAfterHeader r).
Proof.
  split; [reflexivity|]. split; [vm_compute; lia|].
  apply (request_waits_between_attempts Scenario.busy 3
           AxiosRequestConfig.empty); [reflexivity|vm_compute; lia].
Defined.

Lemma request_attempts_repeat_the_request_witness :
  AxiosRequestConfig._attemptIndex Scenario.tagged = None /\
  (Z.to_nat attemptLimit <= 3)%nat /\
  exists settled log,
    request Scenario.unavailable 3 Scenario.tagged = Some (settled, log) /\
    forall (k : nat) c, sends log !! k = Some c ->
      c = {| AxiosRequestConfig.method := AxiosRequestConfig.method Scenario.tagged;
             AxiosRequestConfig.url := AxiosRequestConfig.url Scenario.tagged;
             AxiosRequestConfig.data := AxiosRequestConfig.data Scenario.tagged;
             AxiosRequestConfig.headers := AxiosRequestConfig.headers Scenario.tagged;
             AxiosRequestConfig._attemptIndex := Some (Z.of_nat k) |}.
Proof.
  split; [reflexivity|]. split; [vm_compute; lia|].
  apply (request_attempts_repeat_the_request Scenario.unavailable 3 Scenario.tagged);
    [reflexivity|vm_compute; lia].
Defined.

Lemma request_past_the_limit_never_settles_witness :
  AxiosRequestConfig._attemptIndex Scenario.pastLimit = Some 2 /\
  attemptLimit - 1 <= 2 /\
  (forall c, exists r, Scenario.unavailable c = Failed (Some r) /\ serverError r) /\
  request Scenario.unavailable 1000 Scenario.pastLimit = None.
Proof.
  assert (Hall : forall c, exists r,
             Scenario.unavailable c = Failed (Some r) /\ serverError r).
  { intros c. eexists. split; [reflexivity|]. unfold serverError. cbn. lia. }
  split; [reflexivity|]. split; [vm_compute; discriminate|]. split; [exact Hall|].
  apply (request_past_the_limit_never_settles Scenario.unavailable 1000
           Scenario.pastLimit 2); [reflexivity|vm_compute; discriminate|exact Hall].
Defined.

(** A caller's key is replaced and the caller's other header is kept. *)
Example post_replaces_the_callers_key :
  exists settled log,
    fst (post Scenario.healthy 3 "payments" VNull (Some Scenario.tagged) Scenario.stuck)
      = Some (settled, log) /\
    (fun c => (AxiosRequestConfig.headers c !! "Idempotency-Key",
               AxiosRequestConfig.headers c !! "X-Request-Id")) <$> sends log
    = [(Some "AAAAAAAAAAAAAAAAAAAAAAAA", Some "42")].
Proof. do 2 eexists. split; vm_compute; reflexivity. Qed.


Lemma retry_after_reads_numeric_prefix_witness :
  allWhiteSpace " " = true /\
  plainInteger "120" 120 /\
  120 * 1000 <= 2 ^ 53 /\
  (forall c rest', " seconds" = String c rest' -> isDigit c = false) /\
  parseRetryAfterHeader Scenario.inTwoMinutes = Some 120000.
Proof.
  assert (Hplain : plainInteger "120" 120).
  { apply (plain_more "12" 12 "0"); [|reflexivity].
    apply (plain_more "1" 1 "2"); [|reflexivity].
    by apply (plain_digit "1"). }
  assert (Hstop : forall c rest', " seconds" = String c rest' -> isDigit c = false).
  { intros c rest' [= <- _]. reflexivity. }
  split; [reflexivity|]. split; [exact Hplain|]. split; [vm_compute; discriminate|].
  split; [exact Hstop|].
  destruct (retry_after_reads_numeric_prefix Scenario.inTwoMinutes " " "120" 120 " seconds")
    as [Hunsigned _]; [reflexivity|exact Hplain|vm_compute; discriminate|exact Hstop|].
  apply Hunsigned. reflexivity.
Defined.

End FurtherExamples.

Section FurtherClientExamples.
Import JS Axios NetworkClient.

Lemma instance_headers_witness :
  exists headers,
    constructorHeaders Scenario.asGiven Scenario.options "3.0.0" "10.0.0" = Fine headers /\
    headers !! "Accept" = Some "application/hal+json" /\
    headers !! "Authorization" = Some "Bearer test_dHar4XY7LxsDOtmnkVtjNVWXLSlXsM" /\
    headers !! "X-Shop" = Some "7".
Proof.
  eexists. split; [reflexivity|].
  destruct (instance_headers Scenario.asGiven Scenario.options "3.0.0" "10.0.0" _ eq_refl)
    as (Haccept & _ & _ & Hauth & _ & Hother).
  split; [exact Haccept|]. split; [exact Hauth|].
  rewrite Hother by discriminate. reflexivity.
Defined.

(** The header of the options of the scenario, and what it becomes without
    the API key. *)
Example user_agent_header :
  composeUserAgent Scenario.asGiven "10.0.0" "3.0.0" (Sole "ReactionCommerce/1.16.0")
    = Fine "Node/10.0.0 Mollie/3.0.0 ReactionCommerce/1.16.0" /\
  composeUserAgent Scenario.asGiven "10.0.0" "3.0.0"
    (Several ["ReactionCommerce/1.16.0"; "/1.0"; "NoSlash"])
    = ErrorThrown noWhiteSpace /\
  composeUserAgent Scenario.asGiven "10.0.0" "3.0.0" (Sole "a/b/c")
    = ErrorThrown needsSlash /\
  composeUserAgent Scenario.asGiven "10.0.0" "3.0.0" (Sole "Shop/1 0")
    = ErrorThrown noWhiteSpace.
Proof. vm_compute. repeat split. Qed.

Lemma list_outcome_by_body_witness :
  Scenario.ok Scenario.itemsOnly GET ("payments" +:+ Scenario.noQuery []) None
    = inl (Scenario.respond 200 ∅ Scenario.itemsOnly) /\
  NetworkClient.list (Scenario.ok Scenario.itemsOnly) Scenario.noQuery
    "payments" "payments" []
  = Returned {| target := VArray [VNumber 1];
                listed_links := VUndefined;
                listed_count := VUndefined |}.
Proof.
  split; [reflexivity|].
  apply (list_outcome_by_body (Scenario.ok Scenario.itemsOnly) Scenario.noQuery
           "payments" "payments" [] (Scenario.respond 200 ∅ Scenario.itemsOnly) eq_refl).
  repeat split; reflexivity.
Defined.

Lemma next_page_requested_ahead_witness :
  promiseForLinked "payments" Scenario.firstPage None /\
  items Scenario.firstPage = [1; 2; 3]%nat /\
  next (links Scenario.firstPage) = Some {| href := "payments?from=tr_4" |} /\
  (length (items Scenario.firstPage) <= 5)%nat /\
  exists events,
    generatorNext Scenario.paged (SuspendedYield "payments" Scenario.firstPage None) =
    (Value 1%nat,
     SuspendedYield "payments"
       {| items := [2; 3]%nat; links := links Scenario.firstPage |}
       (Some ("payments?from=tr_4", "payments", None)),
     events).
Proof.
  split; [exact I|]. split; [reflexivity|]. split; [reflexivity|].
  split; [vm_compute; lia|].
  apply (next_page_requested_ahead Scenario.paged "payments" Scenario.firstPage None
           1%nat [2; 3]%nat {| href := "payments?from=tr_4" |});
    [exact I|reflexivity|reflexivity|vm_compute; lia].
Defined.

Lemma identifier_plausible_for_one_kind_witness :
  is_Some (checkId.prefixes !! "payment") /\
  is_Some (checkId.prefixes !! "payment") /\
  checkId.checkId (Some "tr_7UhSN1zuXS") "payment" = true /\
  "payment" = "payment".
Proof.
  assert (Hkind : is_Some (checkId.prefixes !! "payment")).
  { exists "tr_". vm_compute. reflexivity. }
  assert (Hid : checkId.checkId (Some "tr_7UhSN1zuXS") "payment" = true).
  { vm_compute. reflexivity. }
  split; [exact Hkind|]. split; [exact Hkind|]. split; [exact Hid|].
  exact (identifier_plausible_for_one_kind (Some "tr_7UhSN1zuXS") "payment" "payment"
           Hkind Hkind Hid Hid).
Defined.

End FurtherClientExamples.
